(** * EDDN gateway: the upload pipeline of [src/eddn/Gateway.py]

    The gateway receives an HTTP upload, undoes an optional gzip/deflate
    content encoding, extracts the [data] field of a form-encoded body,
    parses the payload as JSON, optionally stamps it with a salted hash
    of the uploader's address, and publishes the re-serialised message,
    zlib-compressed, on a ZeroMQ PUB socket.

    Python 2 [str] values are byte strings: they are modelled by
    [string] (a list of 8-bit [ascii] characters). *)

From Stdlib Require Import ZArith Ascii String List.
From stdpp Require Import base option strings list gmap.

Local Open Scope string_scope.
Local Open Scope list_scope.

(** ** Python string primitives used by the gateway and by [urlparse] *)

Module PyStr.

(** The double-quote character (ASCII code 34). *)
Definition dquote : ascii := "034"%char.

(** [s.split(sep)] for a one-character separator: always at least one
    piece, empty pieces are kept. *)
Fixpoint split (sep : ascii) (s : string) : list string :=
  match s with
  | EmptyString => [EmptyString]
  | String c rest =>
      if Ascii.eqb c sep then EmptyString :: split sep rest
      else match split sep rest with
           | piece :: pieces => String c piece :: pieces
           | [] => [String c EmptyString]
           end
  end.

(** [s.split(sep, 1)]: one piece when [sep] does not occur, otherwise
    the text before the first [sep] and everything after it. *)
Fixpoint split1 (sep : ascii) (s : string) : list string :=
  match s with
  | EmptyString => [EmptyString]
  | String c rest =>
      if Ascii.eqb c sep then [EmptyString; rest]
      else match split1 sep rest with
           | piece :: pieces => String c piece :: pieces
           | [] => [String c EmptyString]
           end
  end.

(** [s.replace(old, new)] for one-character [old] and [new]. *)
Fixpoint replace (old new : ascii) (s : string) : string :=
  match s with
  | EmptyString => EmptyString
  | String c rest =>
      String (if Ascii.eqb c old then new else c) (replace old new rest)
  end.

(** [''.join(pieces)]. *)
Definition join (pieces : list string) : string :=
  fold_right String.append EmptyString pieces.

(** Truth value of a [str]: non-empty. *)
Definition truthy (s : string) : bool :=
  match s with EmptyString => false | String _ _ => true end.

(** Truth value of an optional [str] ([None] is false). *)
Definition truthy_opt (o : option string) : bool :=
  match o with None => false | Some s => truthy s end.

(** [c in s] for a one-character [c]. *)
Fixpoint contains (c : ascii) (s : string) : bool :=
  match s with
  | EmptyString => false
  | String a rest => Ascii.eqb a c || contains c rest
  end.

End PyStr.

(** ** [urlparse.parse_qs] (Python 2.7 standard library)

    The gateway calls [urlparse.parse_qs(message_body)] with the default
    arguments [keep_blank_values=0] and [strict_parsing=0]; the model
    follows the library's [unquote], [parse_qsl] and [parse_qs] for that
    call. *)

Module urlparse.

(** Value of a hexadecimal digit; [_hexdig] is
    ['0123456789ABCDEFabcdef']. *)
Definition hexval (c : ascii) : option N :=
  let n := N_of_ascii c in
  if (48 <=? n)%N && (n <=? 57)%N then Some (n - 48)%N
  else if (65 <=? n)%N && (n <=? 70)%N then Some (n - 55)%N
  else if (97 <=? n)%N && (n <=? 102)%N then Some (n - 87)%N
  else None.

(** [_hextochr[item[:2]]] followed by [item[2:]]; [None] stands for
    the [KeyError] raised when [item[:2]] is not two hex digits. *)
Definition unquote_item (item : string) : option string :=
  match item with
  | String a (String b rest) =>
      match hexval a, hexval b with
      | Some hi, Some lo => Some (String (ascii_of_N (16 * hi + lo)) rest)
      | _, _ => None
      end
  | _ => None
  end.

(** [unquote(s)] on a byte string. *)
Definition unquote (s : string) : string :=
  match PyStr.split "%" s with
  | [] => s
  | [_] => s
  | first :: items =>
      PyStr.join
        (first ::
         map (fun item =>
                match unquote_item item with
                | Some decoded => decoded
                | None => String "%" item
                end) items)
  end.

(** One iteration of the loop of [parse_qsl]: the pairs contributed
    by [name_value]. *)
Definition parse_pair (name_value : string) : list (string * string) :=
  if negb (PyStr.truthy name_value) then []
  else match PyStr.split1 "=" name_value with
       | [name; value] =>
           if PyStr.truthy value
           then [(unquote (PyStr.replace "+" " " name),
                  unquote (PyStr.replace "+" " " value))]
           else []
       | _ => []
       end.

(** [parse_qsl(qs)]: fields are separated by [&] or [;]. *)
Definition parse_qsl (qs : string) : list (string * string) :=
  let pairs := concat (map (PyStr.split ";") (PyStr.split "&" qs)) in
  concat (map parse_pair pairs).

(** The values given to [key] in a list of fields, in order. *)
Definition field_values (key : string) (fields : list (string * string))
  : list string :=
  snd <$> filter (fun kv => kv.1 = key) fields.

(** One iteration of the loop of [parse_qs]. *)
Definition add_field (d : gmap string (list string)) (nv : string * string)
  : gmap string (list string) :=
  match d !! nv.1 with
  | Some values => <[nv.1 := values ++ [nv.2]]> d
  | None => <[nv.1 := [nv.2]]> d
  end.

(** [parse_qs(qs)]: a dictionary from field names to the list of
    their values. *)
Definition parse_qs (qs : string) : gmap string (list string) :=
  fold_left add_field (parse_qsl qs) ∅.

End urlparse.

(** ** [hashlib.sha1(...).hexdigest()] (FIPS 180-4, SHA-1)

    Words are 32-bit unsigned integers kept in [Z]; every addition and
    rotation is reduced modulo [2^32]. *)

Module hashlib.

Local Open Scope Z_scope.

Definition add32 (x y : Z) : Z := (x + y) mod 2 ^ 32.

Definition rotl (n x : Z) : Z :=
  Z.lor (Z.shiftl x n mod 2 ^ 32) (Z.shiftr x (32 - n)).

Definition not32 (x : Z) : Z := Z.lxor x 4294967295.

Definition bytes_of (s : string) : list Z :=
  map (fun c => Z.of_N (N_of_ascii c)) (list_ascii_of_string s).

(** Big-endian bytes of [x], [n] of them. *)
Fixpoint be_bytes (n : nat) (x : Z) : list Z :=
  match n with
  | O => []
  | S n' => Z.shiftr x (8 * Z.of_nat n') mod 256 :: be_bytes n' x
  end.

(** Message padding: a [1] bit, zeros up to 56 modulo 64 bytes, then
    the bit length on 64 bits. *)
Definition pad (msg : list Z) : list Z :=
  let len := Z.of_nat (length msg) in
  msg ++ [128] ++ repeat 0 (Z.to_nat ((55 - len) mod 64))
      ++ be_bytes 8 (8 * len).

(** The big-endian 32-bit words of a block. *)
Fixpoint words (n : nat) (block : list Z) : list Z :=
  match n with
  | O => []
  | S n' =>
      match block with
      | b0 :: b1 :: b2 :: b3 :: rest =>
          (b0 * 16777216 + b1 * 65536 + b2 * 256 + b3) :: words n' rest
      | _ => []
      end
  end.

(** Message schedule: [n] more words appended to [w]. *)
Fixpoint schedule (n : nat) (w : list Z) : list Z :=
  match n with
  | O => w
  | S n' =>
      let t := length w in
      let at_ k := nth (t - k) w 0 in
      schedule n'
        (w ++ [rotl 1 (Z.lxor (Z.lxor (at_ 3%nat) (at_ 8%nat))
                              (Z.lxor (at_ 14%nat) (at_ 16%nat)))])
  end.

Definition state : Type := Z * Z * Z * Z * Z.

Definition round (t : nat) (wt : Z) (st : state) : state :=
  let '(a, b, c, d, e) := st in
  let '(f, k) :=
    if (t <? 20)%nat then
      (Z.lor (Z.land b c) (Z.land (not32 b) d), 1518500249)
    else if (t <? 40)%nat then
      (Z.lxor (Z.lxor b c) d, 1859775393)
    else if (t <? 60)%nat then
      (Z.lor (Z.lor (Z.land b c) (Z.land b d)) (Z.land c d), 2400959708)
    else
      (Z.lxor (Z.lxor b c) d, 3395469782) in
  let temp := add32 (add32 (add32 (add32 (rotl 5 a) f) e) k) wt in
  (temp, a, rotl 30 b, c, d).

Fixpoint rounds (t : nat) (w : list Z) (st : state) : state :=
  match w with
  | [] => st
  | wt :: w' => rounds (S t) w' (round t wt st)
  end.

Definition compress (st : state) (block : list Z) : state :=
  let '(h0, h1, h2, h3, h4) := st in
  let '(a, b, c, d, e) := rounds 0 (schedule 64 (words 16 block)) st in
  (add32 h0 a, add32 h1 b, add32 h2 c, add32 h3 d, add32 h4 e).

Fixpoint blocks (n : nat) (data : list Z) (st : state) : state :=
  match n with
  | O => st
  | S n' => blocks n' (skipn 64 data) (compress st (firstn 64 data))
  end.

Definition init : state :=
  (1732584193, 4023233417, 2562383102, 271733878, 3285377520).

Definition digest_state (s : string) : state :=
  let data := pad (bytes_of s) in
  blocks (length data / 64)%nat data init.

Definition hexdigit (x : Z) : ascii :=
  let n := Z.to_N (x mod 16) in
  ascii_of_N (if (n <? 10)%N then 48 + n else 87 + n)%N.

Definition hex8 (x : Z) : string :=
  String (hexdigit (Z.shiftr x 28))
    (String (hexdigit (Z.shiftr x 24))
       (String (hexdigit (Z.shiftr x 20))
          (String (hexdigit (Z.shiftr x 16))
             (String (hexdigit (Z.shiftr x 12))
                (String (hexdigit (Z.shiftr x 8))
                   (String (hexdigit (Z.shiftr x 4))
                      (String (hexdigit x) EmptyString))))))).

(** [hashlib.sha1(s).hexdigest()]: 40 lower-case hex digits. *)
Definition sha1_hexdigest (s : string) : string :=
  let '(h0, h1, h2, h3, h4) := digest_state s in
  hex8 h0 +:+ hex8 h1 +:+ hex8 h2 +:+ hex8 h3 +:+ hex8 h4.

End hashlib.

(** ** Python values handled by the gateway *)

Local Set Warnings "-register-all".

(** What [simplejson.loads] returns: [None], [bool], [int]/[long],
    [float] (given by its IEEE 754 binary64 bit pattern),
    [str]/[unicode], [list] and [dict] with string keys. *)
Inductive json : Type :=
| JNone
| JBool (b : bool)
| JInt (n : Z)
| JFloat (bits : Z)
| JStr (s : string)
| JList (items : list json)
| JDict (entries : gmap string json).

(** Whether the top-level value is a mapping. *)
Definition is_mapping (v : json) : bool :=
  match v with JDict _ => true | _ => false end.

(** The exceptions that occur in the gateway. [zlib_error],
    [MalformedUploadError], [ValueError] and [TypeError] carry the
    exception's [message]; [AttributeError] carries the attribute that
    was looked up. *)
Inductive exn : Type :=
| zlib_error (message : string)
| MalformedUploadError (message : string)
| ValueError (message : string)
| TypeError (message : string)
| KeyError (key : string)
| IndexError
| AttributeError (attr : string).

(** Public attribute names of the built-in types of Python 2.7. *)
Module PyAttr.

Definition dict_attrs : list string :=
  ["clear"; "copy"; "fromkeys"; "get"; "has_key"; "items"; "iteritems";
   "iterkeys"; "itervalues"; "keys"; "pop"; "popitem"; "setdefault";
   "update"; "values"; "viewitems"; "viewkeys"; "viewvalues"].

Definition list_attrs : list string :=
  ["append"; "count"; "extend"; "index"; "insert"; "pop"; "remove";
   "reverse"; "sort"].

Definition str_attrs : list string :=
  ["capitalize"; "center"; "count"; "decode"; "encode"; "endswith";
   "expandtabs"; "find"; "format"; "index"; "isalnum"; "isalpha";
   "isdecimal"; "isdigit"; "islower"; "isnumeric"; "isspace"; "istitle";
   "isupper"; "join"; "ljust"; "lower"; "lstrip"; "partition"; "replace";
   "rfind"; "rindex"; "rjust"; "rpartition"; "rsplit"; "rstrip"; "split";
   "splitlines"; "startswith"; "strip"; "swapcase"; "title"; "translate";
   "upper"; "zfill"].

Definition int_attrs : list string :=
  ["bit_length"; "conjugate"; "denominator"; "imag"; "numerator"; "real"].

Definition float_attrs : list string :=
  ["as_integer_ratio"; "conjugate"; "fromhex"; "hex"; "imag";
   "is_integer"; "real"].

Definition attrs_of (v : json) : list string :=
  match v with
  | JNone => []
  | JBool _ => int_attrs
  | JInt _ => int_attrs
  | JFloat _ => float_attrs
  | JStr _ => str_attrs
  | JList _ => list_attrs
  | JDict _ => dict_attrs
  end.

(** [hasattr(v, name)] for a public name. *)
Definition hasattr (v : json) (name : string) : bool :=
  bool_decide (name ∈ attrs_of v).

End PyAttr.

(** ** The request, the response and the greenlets *)

(** What the gateway reads from bottle's [request]: the headers, the
    peer address, the body (every access to [request.body] rewinds the
    stream, so each [request.body.read()] returns the whole body), and
    [forms], the fields [request.forms] holds once bottle has returned
    it, in order. For a body that is not multipart, bottle 0.12 decodes
    these fields from the body itself and refuses a body above its
    memory limit: [bottle.presents] below states that relation, and a
    statement that is to hold of such a request assumes it. *)
Record request : Type := Request {
  headers : gmap string string;
  remote_addr : string;
  body : string;
  forms : list (string * string)
}.

(** [request.forms.get(key)] on the fields bottle returned: the last
    value given for [key], if any. *)
Definition forms_get (fields : list (string * string)) (key : string)
  : option string :=
  snd <$> last (filter (fun kv => kv.1 = key) fields).

(** What a handler changes besides returning its body: the status of
    bottle's [response] and the greenlets started with [gevent.spawn],
    each recorded as the argument given to [push_message]. *)
Record state : Type := State {
  response_status : Z;
  spawned : list string
}.

Definition initial : state := {| response_status := 200; spawned := [] |}.

(** A computation either returns a value or raises an exception, and
    leaves a state behind in both cases. *)
Definition M (A : Type) : Type := state → (A + exn) * state.

#[export] Instance M_ret : MRet M := λ A (a : A) st, (inl a, st).

#[export] Instance M_bind : MBind M := λ A B (f : A → M B) (c : M A) st,
  match c st with
  | (inl a, st') => f a st'
  | (inr e, st') => (inr e, st')
  end.

Definition raise {A : Type} (e : exn) : M A := λ st, (inr e, st).

(** [try: c except <handled by h>: h e]; an exception for which [h]
    has no clause propagates. *)
Definition try_except {A : Type} (c : M A) (h : exn → option (M A)) : M A :=
  λ st,
    match c st with
    | (inl a, st') => (inl a, st')
    | (inr e, st') =>
        match h e with
        | Some handler => handler st'
        | None => (inr e, st')
        end
    end.

(** [try: a = c except <handled by h>: return h e] followed by [k a]:
    the handler's value is the function's result, and exceptions of the
    continuation [k] are not handled here. *)
Definition try_or_return {A B : Type}
    (c : M A) (h : exn → option (M B)) (k : A → M B) : M B :=
  λ st,
    match c st with
    | (inl a, st') => k a st'
    | (inr e, st') =>
        match h e with
        | Some handler => handler st'
        | None => (inr e, st')
        end
    end.

(** [response.status = code]. *)
Definition set_status (code : Z) : M unit :=
  λ st, (inl (), {| response_status := code; spawned := spawned st |}).

(** [gevent.spawn(push_message, arg)]. *)
Definition gevent_spawn (arg : string) : M unit :=
  λ st, (inl (), {| response_status := response_status st;
                    spawned := spawned st ++ [arg] |}).

(** What the HTTP client gets: the status and body set by the handler,
    or an exception that left [upload] unhandled. *)
Inductive outcome : Type :=
| Response (status : Z) (text : string)
| Unhandled (e : exn).

(** Whether the request announces a compressed body. *)
Definition compressed (req : request) : Prop :=
  headers req !! "Content-Encoding" = Some "gzip" ∨
  headers req !! "Content-Encoding" = Some "deflate".

(** ** [request.forms] (bottle 0.12)

    For a request that is not multipart, bottle reads the body, raises
    [HTTPError(413)] when it is longer than [MEMFILE_MAX], and decodes
    it with its own [_parse_qsl], which keeps fields without [=] and
    fields with an empty value. *)

Module bottle.


(** One iteration of the loop of [_parse_qsl]. *)
Definition parse_pair (pair : string) : list (string * string) :=
  if negb (PyStr.truthy pair) then []
  else match PyStr.split1 "=" pair with
       | name :: value :: _ =>
           [(urlparse.unquote (PyStr.replace "+" " " name),
             urlparse.unquote (PyStr.replace "+" " " value))]
       | [name] =>
           [(urlparse.unquote (PyStr.replace "+" " " name),
             urlparse.unquote (PyStr.replace "+" " " EmptyString))]
       | [] => []
       end.

(** [_parse_qsl(qs)]. *)
Definition parse_qsl (qs : string) : list (string * string) :=
  concat (map parse_pair (PyStr.split "&" (PyStr.replace ";" "&" qs))).


End bottle.

(** ** The gateway *)

Module Gateway.

Section Libraries.

(** The libraries the gateway calls and its settings.
    [zlib_decompress data wbits] is [zlib.decompress(data, wbits)]
    and returns the output, or the message of the [zlib.error] it
    raises; [loads] is [simplejson.loads] on a byte string and
    returns the decoded value, or the message of the [ValueError]
    ([JSONDecodeError]) it raises; [GATEWAY_IP_KEY_SALT] is the
    setting of that name, [None] when unset. *)
Variable zlib_decompress : string → Z → string + string.
Variable zlib_compress : string → string.
Variable loads : string → json + string.
Variable dumps : json → string.
Variable GATEWAY_IP_KEY_SALT : option string.

Definition zlib_decompress_call (data : string) (wbits : Z) : M string :=
  match zlib_decompress data wbits with
  | inl output => mret output
  | inr message => raise (zlib_error message)
  end.

Definition simplejson_loads (data : string) : M json :=
  match loads data with
  | inl value => mret value
  | inr message => raise (ValueError message)
  end.

(** [push_message]: the frame handed to [sender.send] is appended to
    the frames the PUB socket has sent. *)
Definition push_message (string_message : string) (sender : list string)
  : list string :=
  let compressed_msg := zlib_compress string_message in
  sender ++ [compressed_msg].

Definition get_remote_address (req : request) : string :=
  default (remote_addr req) (headers req !! "X-Forwarded-For").

Definition no_data_message : string :=
  "No 'data' POST key/value found. Check your POST key " +:+
  "name for spelling, and make sure you're passing a value.".

(** Truth value of a [dict]: non-empty. *)
Definition dict_truthy (d : gmap string (list string)) : bool :=
  negb (bool_decide (d = ∅)).

(** [d[key]] and [values[i]]. *)
Definition getitem (d : gmap string (list string)) (key : string)
  : M (list string) :=
  match d !! key with
  | Some values => mret values
  | None => raise (KeyError key)
  end.

Definition index (values : list string) (i : nat) : M string :=
  match values !! i with
  | Some value => mret value
  | None => raise IndexError
  end.

(** The [try]/[except] around the two calls of [zlib.decompress]:
    automatic header detection first, then a raw deflate stream. *)
Definition decompress_body (req : request) : M string :=
try_except (zlib_decompress_call (body req) (15 + 32))
  (λ e, match e with
        | zlib_error _ => Some (zlib_decompress_call (body req) (-15))
        | _ => None
        end).

(** The probe for a form-encoded body that follows decompression. *)
Definition form_enc_extract (message_body : string) : M string :=
let form_enc_parsed := urlparse.parse_qs message_body in
if dict_truthy form_enc_parsed then
  try_except
    (values ← getitem form_enc_parsed "data"; index values 0)
    (λ e, match e with
          | KeyError _ | IndexError =>
              Some (raise (MalformedUploadError no_data_message))
          | _ => None
          end)
else mret message_body.

Definition get_decompressed_message (req : request) : M string :=
let content_encoding := default "" (headers req !! "Content-Encoding") in
if bool_decide (content_encoding ∈ ["gzip"; "deflate"]) then
  message_body ← decompress_body req;
  form_enc_extract message_body
else
  let data_key := forms_get (forms req) "data" in
  match data_key with
  | Some value =>
      if PyStr.truthy value then mret value else mret (body req)
  | None => mret (body req)
  end.

(** The canonical payload of a request, or the exception raised while
    extracting it. *)
Definition payload (req : request) : string + exn :=
(get_decompressed_message req initial).1.

(** The dictionary [{'name': 'EMDR', 'key': ip_hash}]. *)
Definition upload_key_entry (ip_hash : string) : json :=
  JDict (<["name" := JStr "EMDR"]> (<["key" := JStr ip_hash]> ∅)).

(** [hashlib.sha1(ip_hash_salt + get_remote_address()).hexdigest()]. *)
Definition ip_hash_of (ip_hash_salt : string) (req : request) : string :=
  hashlib.sha1_hexdigest (ip_hash_salt +:+ get_remote_address req).

(** An attribute of a built-in value: a bound method, or for numbers
    one of their numeric components. *)
Inductive builtin_attr : Type :=
| BuiltinAttr (self : json) (name : string).

(** [v.name] on a value decoded by [simplejson]. *)
Definition getattr (v : json) (name : string) : M builtin_attr :=
  if PyAttr.hasattr v name then mret (BuiltinAttr v name)
  else raise (AttributeError name).

(** [target.append(item)] where [target] is an attribute of a built-in
    value: neither bound methods nor numbers have an [append]. *)
Definition call_append (target : builtin_attr) (item : json) : M unit :=
  raise (AttributeError "append").

(** Calls to [logger] are left out: they change neither the response
    nor what is spawned. *)
Definition parse_and_error_handle (req : request) (data : string)
  : M string :=
  try_or_return (simplejson_loads data)
    (λ exc, match exc with
            | MalformedUploadError message
            | TypeError message
            | ValueError message =>
                Some (set_status 400;; mret message)
            | _ => None
            end)
    (λ parsed_message,
       let ip_hash_salt := GATEWAY_IP_KEY_SALT in
       (if PyStr.truthy_opt ip_hash_salt then
          let ip_hash := ip_hash_of (default "" ip_hash_salt) req in
          upload_keys ← getattr parsed_message "upload_keys";
          call_append upload_keys (upload_key_entry ip_hash)
        else mret ());;
       gevent_spawn (dumps parsed_message);;
       mret "OK").

Definition upload (req : request) : M string :=
  try_or_return (get_decompressed_message req)
    (λ exc, match exc with
            | zlib_error message => Some (set_status 400;; mret message)
            | MalformedUploadError message =>
                Some (set_status 400;; mret message)
            | _ => None
            end)
    (λ message_body, parse_and_error_handle req message_body).

(** One request served from a fresh [response]: the outcome and the
    arguments of the [push_message] greenlets it spawned. *)
Definition serve (req : request) : outcome * list string :=
  match upload req initial with
  | (inl text, st) => (Response (response_status st) text, spawned st)
  | (inr e, st) => (Unhandled e, spawned st)
  end.

(** The spawned greenlets run to completion on the PUB socket. *)
Definition run_greenlets (args : list string) (sender : list string)
  : list string :=
  fold_left (λ sent arg, push_message arg sent) args sender.

(** The frames one request puts on a socket that has sent nothing. *)
Definition published (req : request) : list string :=
  run_greenlets (serve req).2 [].

(** Whether a request was answered [200] with the body [OK]. *)
Definition accepted (req : request) : bool :=
match (serve req).1 with
| Response status text => bool_decide (status = 200%Z ∧ text = "OK")
| Unhandled _ => false
end.

(** Requests served one after the other, the greenlets of each running
    before the next request is read. *)
Definition run_server (reqs : list request) (sender : list string)
  : list string :=
fold_left (λ sent req, run_greenlets (serve req).2 sent) reqs sender.

End Libraries.

End Gateway.

(** ** Sample documents *)

Module Doc.

Definition q : string := String PyStr.dquote EmptyString.

(** The JSON texts [{"a":1}], [{"a":"b=c"}], [{"upload_keys": []}] and
    [[1]], and the values they denote. *)
Definition a1 : string := "{" +:+ q +:+ "a" +:+ q +:+ ":1}".
Definition abc : string :=
  "{" +:+ q +:+ "a" +:+ q +:+ ":" +:+ q +:+ "b=c" +:+ q +:+ "}".
Definition keys : string := "{" +:+ q +:+ "upload_keys" +:+ q +:+ ": []}".
Definition list1 : string := "[1]".

Definition val_a1 : json := JDict {[ "a" := JInt 1 ]}.
Definition val_abc : json := JDict {[ "a" := JStr "b=c" ]}.
Definition val_keys : json := JDict {[ "upload_keys" := JList [] ]}.
Definition val_list1 : json := JList [JInt 1].

(** The JSON text [{"a":"x&data=y"}], the value it denotes, and the
    form body [data=...] that carries it percent-encoded. *)
Definition amp : string :=
  "{" +:+ q +:+ "a" +:+ q +:+ ":" +:+ q +:+ "x&data=y" +:+ q +:+ "}".
Definition val_amp : json := JDict {[ "a" := JStr "x&data=y" ]}.

End Doc.

(** ** Sample libraries for closed examples

    A toy framing stands in for zlib: a leading [Z] marks a zlib
    stream, a leading [G] a gzip stream, a leading [R] a raw deflate
    stream, and the rest of the data is the content. The JSON codec
    knows the sample documents. *)

Module Sample.

Definition zlib_decompress (data : string) (wbits : Z) : string + string :=
match data with
| String "Z" content =>
    if bool_decide (wbits = 47%Z ∨ wbits = 15%Z) then inl content
    else inr "Error -3 while decompressing data: invalid stored block lengths"
| String "G" content =>
    if bool_decide (wbits = 47%Z) then inl content
    else inr "Error -3 while decompressing data: invalid stored block lengths"
| String "R" content =>
    if bool_decide (wbits = (-15)%Z) then inl content
    else inr "Error -3 while decompressing data: incorrect header check"
| _ => inr "Error -3 while decompressing data: incorrect header check"
end.

Definition zlib_compress (data : string) : string := String "Z" data.

Definition loads (data : string) : json + string :=
if bool_decide (data = Doc.a1) then inl Doc.val_a1
else if bool_decide (data = Doc.abc) then inl Doc.val_abc
else if bool_decide (data = Doc.keys) then inl Doc.val_keys
else if bool_decide (data = Doc.list1) then inl Doc.val_list1
else inr "No JSON object could be decoded".

Definition dumps (v : json) : string :=
match v with
| JDict entries =>
    match entries !! "a", entries !! "upload_keys" with
    | Some (JInt 1), _ => "{" +:+ Doc.q +:+ "a" +:+ Doc.q +:+ ": 1}"
    | Some (JStr s), _ =>
        "{" +:+ Doc.q +:+ "a" +:+ Doc.q +:+ ": "
            +:+ Doc.q +:+ s +:+ Doc.q +:+ "}"
    | _, Some (JList []) => Doc.keys
    | _, _ => "{}"
    end
| JList [JInt 1] => "[1]"
| _ => "null"
end.

Definition gzip_header : gmap string string :=
  {[ "Content-Encoding" := "gzip" ]}.
Definition deflate_header : gmap string string :=
  {[ "Content-Encoding" := "deflate" ]}.

Definition serve := Gateway.serve zlib_decompress loads dumps.
Definition published :=
  Gateway.published zlib_decompress zlib_compress loads dumps.

End Sample.

(** The sample JSON decoder, extended with [{"a":"x&data=y"}]. *)

Module SampleForms.

Definition loads (data : string) : json + string :=
if bool_decide (data = Doc.amp) then inl Doc.val_amp
else Sample.loads data.

Definition serve :=
  Gateway.serve Sample.zlib_decompress loads Sample.dumps.

End SampleForms.

(** ** Enumerations used to count digests *)

Module Counting.

(** The 256 characters. *)
Definition all_ascii : list ascii := ascii_of_nat <$> seq 0 256.

(** Every string of [k] characters. *)
Fixpoint strings_of_length (k : nat) : list string :=
match k with
| O => [EmptyString]
| S k' => c ← all_ascii; String c <$> strings_of_length k'
end.

End Counting.

(** ** Execution lemmas *)

(** Unfolds the monad operations, and nothing else. *)
Ltac run_monad :=
  cbv beta iota zeta
    delta [mret M_ret mbind M_bind raise try_except try_or_return
           set_status gevent_spawn].

Section Properties.

Variable zlib_decompress : string → Z → string + string.
Variable zlib_compress : string → string.
Variable loads : string → json + string.
Variable dumps : json → string.
Variable GATEWAY_IP_KEY_SALT : option string.

Local Abbreviation decompress_body :=
  (Gateway.decompress_body zlib_decompress).
Local Abbreviation get_decompressed_message :=
  (Gateway.get_decompressed_message zlib_decompress).
Local Abbreviation payload := (Gateway.payload zlib_decompress).
Local Abbreviation parse_and_error_handle :=
  (Gateway.parse_and_error_handle loads dumps GATEWAY_IP_KEY_SALT).
Local Abbreviation upload :=
  (Gateway.upload zlib_decompress loads dumps GATEWAY_IP_KEY_SALT).
Local Abbreviation serve :=
  (Gateway.serve zlib_decompress loads dumps GATEWAY_IP_KEY_SALT).
Local Abbreviation published :=
  (Gateway.published zlib_decompress zlib_compress loads dumps
     GATEWAY_IP_KEY_SALT).
Local Abbreviation accepted :=
  (Gateway.accepted zlib_decompress loads dumps GATEWAY_IP_KEY_SALT).
Local Abbreviation run_server :=
  (Gateway.run_server zlib_decompress zlib_compress loads dumps
     GATEWAY_IP_KEY_SALT).

Lemma compressed_test req :
  compressed req ↔
  bool_decide (default "" (headers req !! "Content-Encoding")
               ∈ ["gzip"; "deflate"]) = true.
Proof.
  unfold compressed. rewrite bool_decide_eq_true.
  rewrite !elem_of_cons, elem_of_nil.
  destruct (headers req !! "Content-Encoding") as [enc|]; simpl.
  - split.
    + intros [[= ->] | [= ->]]; auto.
    + intros [-> | [-> | []]]; auto.
  - split.
    + intros [? | ?]; discriminate.
    + intros [? | [? | []]]; discriminate.
Qed.

Lemma decompress_body_run req st :
  decompress_body req st =
  match zlib_decompress (body req) 47 with
  | inl output => (inl output, st)
  | inr _ =>
      match zlib_decompress (body req) (-15) with
      | inl output => (inl output, st)
      | inr message => (inr (zlib_error message), st)
      end
  end.
Proof.
  unfold Gateway.decompress_body, try_except, Gateway.zlib_decompress_call.
  change (15 + 32)%Z with 47%Z.
  destruct (zlib_decompress (body req) 47); [reflexivity |].
  destruct (zlib_decompress (body req) (-15)); reflexivity.
Qed.

Lemma add_field_nonempty d nv :
  (∀ k vs, d !! k = Some vs → vs ≠ []) →
  ∀ k vs, urlparse.add_field d nv !! k = Some vs → vs ≠ [].
Proof.
  intros Hd k vs. unfold urlparse.add_field.
  destruct (d !! nv.1) as [old|] eqn:Hold;
    (destruct (decide (nv.1 = k)) as [-> | Hne];
     [rewrite lookup_insert_eq | rewrite lookup_insert_ne by done; apply Hd]).
  - intros [= <-]. destruct old; discriminate.
  - intros [= <-]. discriminate.
Qed.

(** Every field of [parse_qs] has at least one value, so [[0]] never
    raises [IndexError]. *)
Lemma parse_qs_nonempty qs k vs :
  urlparse.parse_qs qs !! k = Some vs → vs ≠ [].
Proof.
  unfold urlparse.parse_qs.
  assert (Hgen : ∀ l (d : gmap string (list string)),
             (∀ k vs, d !! k = Some vs → vs ≠ []) →
             ∀ k vs, fold_left urlparse.add_field l d !! k = Some vs →
                     vs ≠ []).
  { induction l as [|nv l IH]; intros d Hd; simpl; [exact Hd |].
    apply IH, add_field_nonempty, Hd. }
  apply Hgen. intros k' vs'. rewrite lookup_empty. discriminate.
Qed.

Lemma dict_truthy_spec (d : gmap string (list string)) :
  Gateway.dict_truthy d = true ↔ d ≠ ∅.
Proof.
  unfold Gateway.dict_truthy. rewrite negb_true_iff, bool_decide_eq_false.
  reflexivity.
Qed.

Lemma form_enc_extract_run message_body st :
  Gateway.form_enc_extract message_body st =
  if Gateway.dict_truthy (urlparse.parse_qs message_body) then
    match urlparse.parse_qs message_body !! "data" with
    | Some (value :: _) => (inl value, st)
    | _ => (inr (MalformedUploadError Gateway.no_data_message), st)
    end
  else (inl message_body, st).
Proof.
  unfold Gateway.form_enc_extract.
  destruct (Gateway.dict_truthy _); [| reflexivity].
  unfold try_except, Gateway.getitem, Gateway.index, mbind, M_bind.
  destruct (urlparse.parse_qs message_body !! "data") as [[|value rest]|];
    reflexivity.
Qed.

Lemma get_decompressed_message_compressed req st :
  compressed req →
  get_decompressed_message req st =
  match decompress_body req st with
  | (inl message_body, st') => Gateway.form_enc_extract message_body st'
  | (inr e, st') => (inr e, st')
  end.
Proof.
  intros Hc%compressed_test. unfold Gateway.get_decompressed_message.
  cbv zeta. rewrite Hc. reflexivity.
Qed.

Lemma get_decompressed_message_plain req st :
  ¬ compressed req →
  get_decompressed_message req st =
  match forms_get (forms req) "data" with
  | Some value =>
      if PyStr.truthy value then (inl value, st) else (inl (body req), st)
  | None => (inl (body req), st)
  end.
Proof.
  intros Hc. unfold Gateway.get_decompressed_message. cbv zeta.
  destruct (bool_decide _) eqn:Htest.
  - exfalso. apply Hc, compressed_test, Htest.
  - destruct (forms_get (forms req) "data") as [value|]; [| reflexivity].
    destruct (PyStr.truthy value); reflexivity.
Qed.

(** No value decoded from JSON has an attribute [upload_keys]. *)
Lemma hasattr_upload_keys v : PyAttr.hasattr v "upload_keys" = false.
Proof. destruct v; vm_compute; reflexivity. Qed.

Lemma parse_and_error_handle_run req data st :
  parse_and_error_handle req data st =
  match loads data with
  | inr message =>
      (inl message, {| response_status := 400; spawned := spawned st |})
  | inl parsed_message =>
      if PyStr.truthy_opt GATEWAY_IP_KEY_SALT
      then (inr (AttributeError "upload_keys"), st)
      else (inl "OK", {| response_status := response_status st;
                         spawned := spawned st ++ [dumps parsed_message] |})
  end.
Proof.
  unfold Gateway.parse_and_error_handle, try_or_return,
    Gateway.simplejson_loads.
  destruct (loads data) as [parsed_message | message]; [| reflexivity].
  cbv zeta. destruct (PyStr.truthy_opt GATEWAY_IP_KEY_SALT).
  - unfold Gateway.getattr. run_monad.
    rewrite hasattr_upload_keys. reflexivity.
  - reflexivity.
Qed.

Lemma upload_run req st :
  upload req st =
  match get_decompressed_message req st with
  | (inl message_body, st') => parse_and_error_handle req message_body st'
  | (inr (zlib_error message), st')
  | (inr (MalformedUploadError message), st') =>
      (inl message, {| response_status := 400; spawned := spawned st' |})
  | (inr e, st') => (inr e, st')
  end.
Proof.
  unfold Gateway.upload, try_or_return.
  destruct (get_decompressed_message req st) as [[message_body | []] st'];
    reflexivity.
Qed.

Lemma get_decompressed_message_pure req st :
  get_decompressed_message req st =
  ((get_decompressed_message req initial).1, st).
Proof.
  destruct (decide (compressed req)) as [Hc | Hc].
  - rewrite !get_decompressed_message_compressed, !decompress_body_run by done.
    destruct (zlib_decompress (body req) 47) as [m | ?];
      [| destruct (zlib_decompress (body req) (-15)) as [m | ?]];
      try reflexivity;
      rewrite !form_enc_extract_run;
      destruct (Gateway.dict_truthy _); try reflexivity;
      destruct (_ !! "data") as [[|? ?]|]; reflexivity.
  - rewrite !get_decompressed_message_plain by done.
    destruct (forms_get _ _) as [value|]; [| reflexivity].
    destruct (PyStr.truthy value); reflexivity.
Qed.

Lemma payload_raises req e :
  payload req = inr e →
  (∃ message, e = zlib_error message) ∨
  e = MalformedUploadError Gateway.no_data_message.
Proof.
  unfold Gateway.payload. destruct (decide (compressed req)) as [Hc | Hc].
  - rewrite get_decompressed_message_compressed, decompress_body_run by done.
    destruct (zlib_decompress (body req) 47) as [m | ?];
      [| destruct (zlib_decompress (body req) (-15)) as [m | msg]];
      try (rewrite form_enc_extract_run;
           destruct (Gateway.dict_truthy _);
           [destruct (_ !! "data") as [[|? ?]|] |]; simpl;
           intros [= <-]; by right).
    simpl. intros [= <-]. left. by exists msg.
  - rewrite get_decompressed_message_plain by done.
    destruct (forms_get _ _) as [value|]; [destruct (PyStr.truthy value) |];
      discriminate.
Qed.

(** The whole request, case by case. *)
Lemma serve_run req :
  serve req =
  match payload req with
  | inl message_body =>
      match loads message_body with
      | inr message => (Response 400 message, [])
      | inl parsed_message =>
          if PyStr.truthy_opt GATEWAY_IP_KEY_SALT
          then (Unhandled (AttributeError "upload_keys"), [])
          else (Response 200 "OK", [dumps parsed_message])
      end
  | inr (zlib_error message)
  | inr (MalformedUploadError message) => (Response 400 message, [])
  | inr e => (Unhandled e, [])
  end.
Proof.
  unfold Gateway.serve, Gateway.payload.
  rewrite upload_run.
  pose proof (get_decompressed_message_pure req initial) as Hpure.
  destruct (get_decompressed_message req initial) as [[message_body | e] st].
  all: simpl in Hpure; injection Hpure as ->; cbv beta iota; simpl fst.
  - rewrite parse_and_error_handle_run.
    destruct (loads message_body); [| reflexivity].
    destruct (PyStr.truthy_opt _); reflexivity.
  - destruct e; reflexivity.
Qed.

Lemma run_greenlets_app args sender :
  Gateway.run_greenlets zlib_compress args sender =
  sender ++ (zlib_compress <$> args).
Proof.
  unfold Gateway.run_greenlets. revert sender.
  induction args as [|arg args IH]; intros sender; simpl.
  - by rewrite app_nil_r.
  - rewrite IH. unfold Gateway.push_message. by rewrite <- app_assoc.
Qed.

Lemma published_run req :
  published req = zlib_compress <$> (serve req).2.
Proof. unfold Gateway.published. apply run_greenlets_app. Qed.

(** ** The augmenter *)

Lemma salted_upload_run req message_body parsed_message :
  PyStr.truthy_opt GATEWAY_IP_KEY_SALT = true →
  payload req = inl message_body →
  loads message_body = inl parsed_message →
  serve req = (Unhandled (AttributeError "upload_keys"), []).
Proof.
  intros Hsalt Hpayload Hloads.
  rewrite serve_run, Hpayload, Hloads, Hsalt. reflexivity.
Qed.

(** C1 (the code departs from the claim): with a salt configured, an
    upload whose payload decodes to a mapping gets no [EMDR] entry
    appended to [upload_keys]. The code looks [upload_keys] up as an
    attribute of the decoded dictionary, which raises [AttributeError];
    the exception is handled neither by [parse_and_error_handle] nor by
    [upload], and nothing is published. *)
Theorem salted_mapping_is_not_augmented req message_body entries :
  PyStr.truthy_opt GATEWAY_IP_KEY_SALT = true →
  payload req = inl message_body →
  loads message_body = inl (JDict entries) →
  parse_and_error_handle req message_body initial =
    (inr (AttributeError "upload_keys"), initial) ∧
  serve req = (Unhandled (AttributeError "upload_keys"), []) ∧
  published req = [].
Proof.
  intros Hsalt Hpayload Hloads. split; [| split].
  - rewrite parse_and_error_handle_run, Hloads, Hsalt. reflexivity.
  - eapply salted_upload_run; eauto.
  - rewrite published_run.
    erewrite salted_upload_run by eauto. reflexivity.
Qed.

(** C2 (the code departs from the claim): with a salt configured, an
    upload whose payload decodes to a value that is not a mapping is
    not answered with a parse error. The lookup of [upload_keys] at
    line 117 runs outside the [try] of lines 101-110 and raises
    [AttributeError], which leaves [upload] unhandled: no [400]
    response is produced and nothing is published. *)
Theorem salted_nonmapping_is_unhandled req message_body parsed_message :
  PyStr.truthy_opt GATEWAY_IP_KEY_SALT = true →
  payload req = inl message_body →
  loads message_body = inl parsed_message →
  is_mapping parsed_message = false →
  serve req = (Unhandled (AttributeError "upload_keys"), []) ∧
  (∀ message, (serve req).1 ≠ Response 400 message) ∧
  published req = [].
Proof.
  intros Hsalt Hpayload Hloads _.
  assert (Hserve := salted_upload_run _ _ _ Hsalt Hpayload Hloads).
  split; [exact Hserve | split].
  - intros message. rewrite Hserve. discriminate.
  - rewrite published_run, Hserve. reflexivity.
Qed.

(** ** The error reporting surface *)

(** Without a salt, a request whose form fields bottle has returned
    is answered in one of four ways: [400] with the decompressor's
    text when both decompressions fail, [400] with the missing-key
    message, [400] with the JSON decoder's text, or [200 OK] with the
    serialised message spawned for publication. *)
Lemma unsalted_response_cases req :
  PyStr.truthy_opt GATEWAY_IP_KEY_SALT = false →
  (∃ message, payload req = inr (zlib_error message) ∧
              serve req = (Response 400 message, [])) ∨
  (payload req = inr (MalformedUploadError Gateway.no_data_message) ∧
   serve req = (Response 400 Gateway.no_data_message, [])) ∨
  (∃ message_body message,
      payload req = inl message_body ∧ loads message_body = inr message ∧
      serve req = (Response 400 message, [])) ∨
  (∃ message_body parsed_message,
      payload req = inl message_body ∧
      loads message_body = inl parsed_message ∧
      serve req = (Response 200 "OK", [dumps parsed_message])).
Proof.
  intros Hsalt. rewrite serve_run, Hsalt.
  destruct (payload req) as [message_body | e] eqn:Hpayload.
  - destruct (loads message_body) as [parsed_message | message] eqn:Hloads.
    + do 3 right. eauto.
    + right; right; left. eauto.
  - destruct (payload_raises _ _ Hpayload) as [[message ->] | ->].
    + left. eauto.
    + right; left. eauto.
Qed.

(** C5 (the code departs from the claim): with a salt configured, a
    request whose payload decodes as JSON is answered with none of the
    four status/body combinations: [AttributeError] leaves [upload], so
    the handler sets no status and returns no body. *)
Theorem salted_upload_leaves_error_surface req message_body parsed_message :
  PyStr.truthy_opt GATEWAY_IP_KEY_SALT = true →
  payload req = inl message_body →
  loads message_body = inl parsed_message →
  ∀ status text, (serve req).1 ≠ Response status text.
Proof.
  intros Hsalt Hpayload Hloads status text.
  erewrite salted_upload_run by eauto. discriminate.
Qed.

(** ** The decompression normalizer *)

(** C3: on a request whose [Content-Encoding] is [gzip] or [deflate],
    the body is first decompressed with automatic header detection
    ([wbits = 15 + 32]); when that fails, the same body is decompressed
    as a raw deflate stream ([wbits = -15]); the request fails with the
    decompressor's error, answered with status [400], exactly when both
    attempts fail. A body that only the second attempt accepts goes on
    to the form probe with the output of that attempt. *)
Theorem decompression_falls_back_to_raw_deflate req :
  compressed req →
  (∀ output, zlib_decompress (body req) 47 = inl output →
     get_decompressed_message req initial =
     Gateway.form_enc_extract output initial) ∧
  (∀ message output,
     zlib_decompress (body req) 47 = inr message →
     zlib_decompress (body req) (-15) = inl output →
     get_decompressed_message req initial =
     Gateway.form_enc_extract output initial) ∧
  (∀ message,
     payload req = inr (zlib_error message) ↔
     (∃ first, zlib_decompress (body req) 47 = inr first) ∧
     zlib_decompress (body req) (-15) = inr message) ∧
  (∀ message,
     payload req = inr (zlib_error message) →
     serve req = (Response 400 message, [])).
Proof.
  intros Hc.
  assert (Hrun := get_decompressed_message_compressed req initial Hc).
  rewrite decompress_body_run in Hrun.
  split; [| split; [| split]].
  - intros output H47. by rewrite Hrun, H47.
  - intros message output H47 Hraw. by rewrite Hrun, H47, Hraw.
  - intros message. unfold Gateway.payload. rewrite Hrun.
    destruct (zlib_decompress (body req) 47) as [out1 | first].
    + split.
      * rewrite form_enc_extract_run.
        destruct (Gateway.dict_truthy _);
          [destruct (_ !! "data") as [[|? ?]|] |]; discriminate.
      * intros [[? [=]] _].
    + destruct (zlib_decompress (body req) (-15)) as [out2 | second].
      * split.
        -- rewrite form_enc_extract_run.
           destruct (Gateway.dict_truthy _);
             [destruct (_ !! "data") as [[|? ?]|] |]; discriminate.
        -- intros [_ [=]].
      * simpl. split.
        -- intros [= ->]. eauto.
        -- intros [_ [= ->]]. reflexivity.
  - intros message Hpayload. by rewrite serve_run, Hpayload.
Qed.

(** C4 (amended): after a successful decompression, a body that
    [parse_qs] reads as form fields none of which is [data] makes the
    request fail with [MalformedUploadError], answered with status
    [400] and the missing-key message; a body in which [parse_qs] finds
    no field is the canonical payload as it is. On the uncompressed
    path no such failure exists: without a [data] field among the form
    fields, the raw body is the canonical payload. *)
Theorem missing_data_key_is_rejected_after_decompression req :
  (compressed req →
   ∀ output st,
     decompress_body req st = (inl output, st) →
     (urlparse.parse_qs output ≠ ∅ →
      urlparse.parse_qs output !! "data" = None →
      payload req = inr (MalformedUploadError Gateway.no_data_message) ∧
      serve req = (Response 400 Gateway.no_data_message, [])) ∧
     (urlparse.parse_qs output = ∅ → payload req = inl output)) ∧
  (¬ compressed req →
   forms_get (forms req) "data" = None →
   payload req = inl (body req)).
Proof.
  split.
  - intros Hc output st Hdec.
    assert (Hrun := get_decompressed_message_compressed req initial Hc).
    rewrite decompress_body_run in Hrun, Hdec.
    assert (Hout : match zlib_decompress (body req) 47 with
                   | inl output => (inl output, initial)
                   | inr _ =>
                       match zlib_decompress (body req) (-15) with
                       | inl output => (inl output, initial)
                       | inr message => (inr (zlib_error message), initial)
                       end
                   end = (@inl string exn output, initial)).
    { destruct (zlib_decompress (body req) 47);
        [| destruct (zlib_decompress (body req) (-15))];
        by simplify_eq. }
    rewrite Hout, form_enc_extract_run in Hrun. clear Hout Hdec.
    split.
    + intros Hne%dict_truthy_spec Hdata.
      rewrite Hne, Hdata in Hrun.
      assert (Hpayload : payload req =
                inr (MalformedUploadError Gateway.no_data_message)).
      { unfold Gateway.payload. by rewrite Hrun. }
      split; [exact Hpayload |]. by rewrite serve_run, Hpayload.
    + intros Hempty. unfold Gateway.payload. rewrite Hrun.
      destruct (Gateway.dict_truthy _) eqn:Htruthy; [| reflexivity].
      apply dict_truthy_spec in Htruthy. contradiction.
  - intros Hc Hdata. unfold Gateway.payload.
    by rewrite get_decompressed_message_plain, Hdata.
Qed.

(** C10: on the uncompressed path the [data] field is tested for
    truth, not for presence: when the field is there with an empty
    value, the canonical payload is the whole raw body, as it is when
    the field is missing. *)
Theorem empty_data_field_counts_as_absent req st :
  ¬ compressed req →
  forms_get (forms req) "data" = Some EmptyString →
  get_decompressed_message req st = (inl (body req), st).
Proof.
  intros Hc Hdata. by rewrite get_decompressed_message_plain, Hdata.
Qed.

(** A text without [&] and [;] whose first character is none of [d],
    [%] and [+] (every JSON text without [&] and [;] is one) has no
    [data] field for bottle. *)
Lemma text_without_data_field c rest :
  c ≠ "d"%char → c ≠ "%"%char → c ≠ "+"%char →
  PyStr.contains "&" (String c rest) = false →
  PyStr.contains ";" (String c rest) = false →
  forms_get (bottle.parse_qsl (String c rest)) "data" = None.
Proof.
  intros Hd Hpct Hplus Hamp Hsemi.
  assert (Hhead : ∀ x, ∃ t,
             urlparse.unquote (PyStr.replace "+" " " (String c x)) =
             String c t).
  { intros x. simpl.
    destruct (Ascii.eqb_spec c "+") as [-> | _]; [done |].
    unfold urlparse.unquote. simpl.
    destruct (Ascii.eqb_spec c "%") as [-> | _]; [done |].
    destruct (PyStr.split "%" (PyStr.replace "+" " " x))
      as [|piece [|item items]]; eauto. }
  assert (Hreplace : PyStr.replace ";" "&" (String c rest) = String c rest).
  { revert Hsemi. generalize (String c rest). intros s.
    induction s as [|a s IH]; simpl; [done |].
    intros [Ha Hs]%orb_false_iff. by rewrite Ha, (IH Hs). }
  assert (Hsplit : PyStr.split "&" (String c rest) = [String c rest]).
  { revert Hamp. generalize (String c rest). intros s.
    induction s as [|a s IH]; simpl; [done |].
    intros [Ha Hs]%orb_false_iff. by rewrite Ha, (IH Hs). }
  unfold bottle.parse_qsl. rewrite Hreplace, Hsplit. simpl map.
  simpl concat. rewrite app_nil_r.
  unfold bottle.parse_pair. cbn [PyStr.truthy negb].
  assert (Hname : ∀ name value,
             (∃ x, name = String c x) ∨ name = EmptyString →
             forms_get
               [(urlparse.unquote (PyStr.replace "+" " " name), value)]
               "data" = None).
  { intros name value [[x ->] | ->].
    - destruct (Hhead x) as [t ->]. unfold forms_get.
      rewrite filter_cons. simpl.
      destruct (decide (String c t = "data")) as [[= ->] | _]; done.
    - reflexivity. }
  cbn [PyStr.split1].
  destruct (Ascii.eqb c "="); [apply Hname; by right |].
  destruct (PyStr.split1 "=" rest) as [|piece [|value pieces]];
    apply Hname; left; eauto.
Qed.


(** ** The publish broadcaster *)

Lemma serve_spawns req :
  (serve req).2 =
  if accepted req then
    match payload req with
    | inl message_body =>
        match loads message_body with
        | inl parsed_message => [dumps parsed_message]
        | inr _ => []
        end
    | inr _ => []
    end
  else [].
Proof.
  unfold Gateway.accepted. rewrite serve_run.
  destruct (payload req) as [message_body | e].
  - destruct (loads message_body); [| reflexivity].
    destruct (PyStr.truthy_opt _); reflexivity.
  - destruct e; reflexivity.
Qed.

Lemma accepted_spec req :
  accepted req = true ↔
  ∃ message_body parsed_message,
    payload req = inl message_body ∧
    loads message_body = inl parsed_message ∧
    serve req = (Response 200 "OK", [dumps parsed_message]).
Proof.
  unfold Gateway.accepted. rewrite serve_run.
  destruct (payload req) as [message_body | e].
  - destruct (loads message_body) as [parsed_message | message] eqn:Hloads.
    + destruct (PyStr.truthy_opt _); simpl.
      * split; [discriminate | intros (? & ? & _ & _ & [=])].
      * split; [intros _; eauto | reflexivity].
    + simpl. split; [discriminate | intros (? & ? & [= <-] & Hl & _)].
      congruence.
  - split; [destruct e; discriminate | intros (? & ? & [=] & _)].
Qed.

Lemma run_server_app reqs sender :
  run_server reqs sender = sender ++ (reqs ≫= published).
Proof.
  unfold Gateway.run_server. revert sender.
  induction reqs as [|req reqs IH]; intros sender; simpl.
  - by rewrite app_nil_r.
  - rewrite IH, run_greenlets_app, <- app_assoc.
    by rewrite published_run.
Qed.

(** C6: every frame on the PUB socket is the zlib compression of the
    JSON serialisation of the message of an accepted upload, so that
    decompressing it gives that serialisation back; an upload that is
    answered [200 OK] publishes exactly one frame and any other upload
    publishes none, so the socket has sent as many frames as uploads
    were accepted. *)
Theorem published_frames_are_compressed_messages reqs :
  (∀ text, zlib_decompress (zlib_compress text) 15 = inl text) →
  (∀ frame, frame ∈ run_server reqs [] →
     ∃ req message_body parsed_message,
       req ∈ reqs ∧ accepted req = true ∧
       payload req = inl message_body ∧
       loads message_body = inl parsed_message ∧
       frame = zlib_compress (dumps parsed_message) ∧
       zlib_decompress frame 15 = inl (dumps parsed_message)) ∧
  (∀ req, req ∈ reqs →
     length (published req) = if accepted req then 1 else 0) ∧
  length (run_server reqs []) = length (filter (λ req, accepted req) reqs).
Proof.
  intros Hzlib.
  assert (Hone : ∀ req,
             published req =
             if accepted req then
               match payload req with
               | inl message_body =>
                   match loads message_body with
                   | inl parsed_message =>
                       [zlib_compress (dumps parsed_message)]
                   | inr _ => []
                   end
               | inr _ => []
               end
             else []).
  { intros req. rewrite published_run, serve_spawns.
    destruct (accepted req); [| reflexivity].
    destruct (payload req) as [message_body |]; [| reflexivity].
    destruct (loads message_body); reflexivity. }
  assert (Hlen : ∀ req,
             length (published req) = if accepted req then 1 else 0).
  { intros req. rewrite Hone.
    destruct (accepted req) eqn:Hacc; [| reflexivity].
    apply accepted_spec in Hacc as (m & v & -> & -> & _). reflexivity. }
  split; [| split].
  - intros frame. rewrite run_server_app. simpl.
    intros (req & Hin & Hreq)%list_elem_of_bind.
    rewrite Hone in Hin.
    destruct (accepted req) eqn:Hacc; [| by apply elem_of_nil in Hin].
    destruct (payload req) as [message_body |] eqn:Hpayload;
      [| by apply elem_of_nil in Hin].
    destruct (loads message_body) as [parsed_message |] eqn:Hloads;
      [| by apply elem_of_nil in Hin].
    apply list_elem_of_singleton in Hin as ->.
    exists req, message_body, parsed_message.
    repeat split; try done; apply Hzlib.
  - intros req _. apply Hlen.
  - rewrite run_server_app, app_nil_l.
    induction reqs as [|req reqs IH]; [reflexivity |].
    rewrite bind_cons, length_app, Hlen, filter_cons, IH.
    by destruct (accepted req).
Qed.

(** ** Form detection after decompression *)

Lemma doc_abc_fields :
  urlparse.parse_qsl Doc.abc =
  [("{" +:+ Doc.q +:+ "a" +:+ Doc.q +:+ ":" +:+ Doc.q +:+ "b",
    "c" +:+ Doc.q +:+ "}")].
Proof. vm_compute. reflexivity. Qed.

(** C9: the JSON text [{"a":"b=c"}] is not form-encoded, yet
    [parse_qs] reads it as one field that is not [data]. Sent
    compressed it is rejected with [MalformedUploadError], status
    [400]; the same text sent uncompressed is accepted with [200 OK]
    and published (no salt being configured). *)
Theorem json_with_equals_sign_is_misread_as_form zipped plain parsed_message :
  compressed zipped →
  decompress_body zipped initial = (inl Doc.abc, initial) →
  ¬ compressed plain →
  body plain = Doc.abc →
  forms_get (forms plain) "data" = None →
  loads Doc.abc = inl parsed_message →
  PyStr.truthy_opt GATEWAY_IP_KEY_SALT = false →
  urlparse.parse_qs Doc.abc ≠ ∅ ∧
  urlparse.parse_qs Doc.abc !! "data" = None ∧
  serve zipped = (Response 400 Gateway.no_data_message, []) ∧
  serve plain = (Response 200 "OK", [dumps parsed_message]).
Proof.
  intros Hz Hdec Hp Hbody Hdata Hloads Hsalt.
  assert (Hne : urlparse.parse_qs Doc.abc ≠ ∅).
  { unfold urlparse.parse_qs. rewrite doc_abc_fields. simpl.
    unfold urlparse.add_field. rewrite lookup_empty. simpl.
    apply insert_non_empty. }
  assert (Hno : urlparse.parse_qs Doc.abc !! "data" = None).
  { unfold urlparse.parse_qs. rewrite doc_abc_fields. simpl.
    unfold urlparse.add_field. rewrite lookup_empty. simpl.
    rewrite lookup_insert_ne by discriminate. apply lookup_empty. }
  split; [exact Hne | split; [exact Hno | split]].
  - rewrite serve_run. unfold Gateway.payload.
    rewrite get_decompressed_message_compressed, Hdec by done.
    rewrite form_enc_extract_run, Hno.
    apply dict_truthy_spec in Hne. rewrite Hne. reflexivity.
  - rewrite serve_run. unfold Gateway.payload.
    rewrite get_decompressed_message_plain, Hdata, Hbody by done.
    simpl. rewrite Hloads, Hsalt. reflexivity.
Qed.

End Properties.

(** ** The upload key *)

Section UploadKey.

Lemma sha1_hexdigest_length s :
  String.length (hashlib.sha1_hexdigest s) = 40.
Proof.
  unfold hashlib.sha1_hexdigest.
  destruct (hashlib.digest_state s) as [[[[h0 h1] h2] h3] h4].
  reflexivity.
Qed.

Lemma all_ascii_complete c : c ∈ Counting.all_ascii.
Proof.
  unfold Counting.all_ascii. rewrite <- (ascii_nat_embedding c).
  apply list_elem_of_fmap_2, elem_of_seq.
  pose proof (nat_ascii_bounded c). lia.
Qed.

Lemma all_ascii_NoDup : NoDup Counting.all_ascii.
Proof.
  unfold Counting.all_ascii.
  apply NoDup_fmap_2_strong; [| apply NoDup_seq].
  intros x y Hx%elem_of_seq Hy%elem_of_seq Heq.
  rewrite <- (nat_ascii_embedding x), <- (nat_ascii_embedding y) by lia.
  by rewrite Heq.
Qed.

Lemma strings_of_length_S k :
  Counting.strings_of_length (S k) =
  Counting.all_ascii ≫= λ c, String c <$> Counting.strings_of_length k.
Proof. reflexivity. Qed.

Lemma strings_of_length_spec k s :
  s ∈ Counting.strings_of_length k ↔ String.length s = k.
Proof.
  revert s. induction k as [|k IH]; intros s.
  - change (Counting.strings_of_length 0) with [EmptyString].
    rewrite list_elem_of_singleton. destruct s; simpl; split; congruence.
  - rewrite strings_of_length_S, list_elem_of_bind. split.
    + intros (c & (t & -> & Ht%IH)%list_elem_of_fmap & _).
      simpl. congruence.
    + destruct s as [|c t]; simpl; [discriminate |]. intros [= Ht].
      exists c. split; [| apply all_ascii_complete].
      apply list_elem_of_fmap_2, IH, Ht.
Qed.

Lemma strings_of_length_NoDup k : NoDup (Counting.strings_of_length k).
Proof.
  induction k as [|k IH].
  - apply NoDup_singleton.
  - rewrite strings_of_length_S. apply NoDup_bind.
    + intros c1 c2 s _ _ (t1 & -> & _)%list_elem_of_fmap
        (t2 & [= -> _] & _)%list_elem_of_fmap.
      reflexivity.
    + intros c _. apply NoDup_fmap_2_strong; [| exact IH].
      intros t1 t2 _ _ [= ->]. reflexivity.
    + apply all_ascii_NoDup.
Qed.

Lemma bind_length_uniform {A B} (f : A → list B) (l : list A) n :
  (∀ x, length (f x) = n) → length (l ≫= f) = length l * n.
Proof.
  intros Hf. induction l as [|x l IH]; [reflexivity |].
  rewrite bind_cons, length_app, Hf, IH. reflexivity.
Qed.

(** There are 256 times more strings of [k + 1] characters than of
    [k] characters. *)
Lemma strings_of_length_grows k :
  length (Counting.strings_of_length k) <
  length (Counting.strings_of_length (S k)).
Proof.
  assert (Hpos : ∀ n, 0 < length (Counting.strings_of_length n)).
  { induction n as [|n IH]; [simpl; lia |].
    rewrite strings_of_length_S.
    rewrite (bind_length_uniform _ _ (length (Counting.strings_of_length n)))
      by (intros c; apply length_fmap).
    unfold Counting.all_ascii. rewrite length_fmap, length_seq. lia. }
  rewrite strings_of_length_S.
  rewrite (bind_length_uniform _ _ (length (Counting.strings_of_length k)))
    by (intros c; apply length_fmap).
  unfold Counting.all_ascii. rewrite length_fmap, length_seq.
  specialize (Hpos k). lia.
Qed.

(** A list without repetition whose image under [f] has one gives two
    different elements with the same image. *)
Lemma repeated_image (f : string → string) l :
  NoDup l → ¬ NoDup (f <$> l) →
  ∃ x y, x ∈ l ∧ y ∈ l ∧ x ≠ y ∧ f x = f y.
Proof.
  induction 1 as [|x l Hx Hl IH]; intros Hdup.
  - destruct Hdup. constructor.
  - rewrite fmap_cons in Hdup.
    destruct (decide (f x ∈ f <$> l)) as [Hin | Hnotin].
    + apply list_elem_of_fmap in Hin as (y & Heq & Hy).
      exists x, y. split_and!; [left | by right | | exact Heq].
      intros ->. contradiction.
    + destruct IH as (y & z & Hy & Hz & Hne & Heq).
      * intros Hnodup. apply Hdup. by constructor.
      * exists y, z. split_and!; [by right | by right | done | done].
Qed.

(** Pigeonhole: a function whose values have [k] characters takes the
    same value on two different strings of [k + 1] characters. *)
Lemma pigeonhole (f : string → string) k :
  (∀ s, String.length (f s) = k) →
  ∃ x y, String.length x = S k ∧ String.length y = S k ∧
         x ≠ y ∧ f x = f y.
Proof.
  intros Hlen.
  destruct (repeated_image f (Counting.strings_of_length (S k)))
    as (x & y & Hx & Hy & Hne & Heq).
  - apply strings_of_length_NoDup.
  - intros Hnodup.
    apply NoDup_submseteq with (k := Counting.strings_of_length k)
      in Hnodup.
    + apply submseteq_length in Hnodup. rewrite length_fmap in Hnodup.
      pose proof (strings_of_length_grows k). lia.
    + intros v (s & -> & _)%list_elem_of_fmap.
      apply strings_of_length_spec, Hlen.
  - apply strings_of_length_spec in Hx, Hy. eauto 10.
Qed.

(** Whatever the salt, two different addresses of 41 characters have
    the same hash: the digest has 40 characters, and there are more
    strings of 41 characters than of 40. *)
Lemma salted_collision salt :
  ∃ a1 a2, String.length a1 = 41 ∧ String.length a2 = 41 ∧ a1 ≠ a2 ∧
    hashlib.sha1_hexdigest (salt +:+ a1) =
    hashlib.sha1_hexdigest (salt +:+ a2).
Proof.
  apply (pigeonhole (λ a, hashlib.sha1_hexdigest (salt +:+ a)) 40).
  intros a. apply sha1_hexdigest_length.
Qed.

End UploadKey.

(** ** Query strings *)

Section QueryStrings.

Lemma split_nonempty c s : PyStr.split c s ≠ [].
Proof.
  destruct s as [|a rest]; simpl; [done |].
  destruct (Ascii.eqb a c); [done |].
  destruct (PyStr.split c rest); done.
Qed.

Lemma split_absent c s : PyStr.contains c s = false → PyStr.split c s = [s].
Proof.
  induction s as [|a rest IH]; simpl; [done |].
  intros [Ha Hrest]%orb_false_iff. rewrite Ha, (IH Hrest). reflexivity.
Qed.


Lemma replace_absent old new s :
  PyStr.contains old s = false → PyStr.replace old new s = s.
Proof.
  induction s as [|a rest IH]; simpl; [done |].
  intros [Ha Hrest]%orb_false_iff. rewrite Ha, (IH Hrest). reflexivity.
Qed.


Lemma unquote_absent s :
  PyStr.contains "%" s = false → urlparse.unquote s = s.
Proof.
  intros Hs. unfold urlparse.unquote. by rewrite (split_absent _ _ Hs).
Qed.



Lemma add_field_lookup d nv k :
  urlparse.add_field d nv !! k =
  if decide (nv.1 = k) then Some (default [] (d !! k) ++ [nv.2])
  else d !! k.
Proof.
  unfold urlparse.add_field.
  destruct (decide (nv.1 = k)) as [<- | Hne].
  - destruct (d !! nv.1) as [old|]; by rewrite lookup_insert_eq.
  - destruct (d !! nv.1) as [old|]; by rewrite lookup_insert_ne.
Qed.

Lemma fold_add_field_lookup fields (d : gmap string (list string)) k :
  fold_left urlparse.add_field fields d !! k =
  match urlparse.field_values k fields with
  | [] => d !! k
  | values => Some (default [] (d !! k) ++ values)
  end.
Proof.
  revert d. induction fields as [|nv fields IH]; intros d; [done |].
  simpl. rewrite IH, add_field_lookup.
  unfold urlparse.field_values. rewrite filter_cons.
  destruct (decide (nv.1 = k)) as [Heq | Hne]; [| done].
  rewrite fmap_cons.
  destruct (snd <$> filter _ fields) as [|value values]; simpl; [done |].
  by rewrite <- app_assoc.
Qed.

(** [parse_qs(qs)[key]] is the list of the values [parse_qsl] gives for
    [key], in order; the key is missing when there is none. *)
Lemma parse_qs_lookup qs k :
  urlparse.parse_qs qs !! k =
  match urlparse.field_values k (urlparse.parse_qsl qs) with
  | [] => None
  | values => Some values
  end.
Proof.
  unfold urlparse.parse_qs. rewrite fold_add_field_lookup, lookup_empty.
  by destruct (urlparse.field_values _ _).
Qed.

Lemma parse_qs_empty qs :
  urlparse.parse_qs qs = ∅ ↔ urlparse.parse_qsl qs = [].
Proof.
  split.
  - intros Hempty.
    destruct (urlparse.parse_qsl qs) as [|[k v] fields] eqn:Hfields; [done |].
    apply (f_equal (lookup k)) in Hempty.
    rewrite parse_qs_lookup, Hfields, lookup_empty in Hempty.
    unfold urlparse.field_values in Hempty.
    rewrite filter_cons in Hempty. simpl in Hempty.
    destruct (decide (k = k)); [| done]. discriminate Hempty.
  - intros Hfields. unfold urlparse.parse_qs. by rewrite Hfields.
Qed.

Lemma unquote_nonempty s : s ≠ EmptyString → urlparse.unquote s ≠ EmptyString.
Proof.
  intros Hs. unfold urlparse.unquote.
  destruct (PyStr.split "%" s) as [|first [|item items]]; [done | done |].
  change (PyStr.join (first :: ?l)) with (first +:+ PyStr.join l).
  simpl map.
  assert (Hitem : match urlparse.unquote_item item with
                  | Some decoded => decoded
                  | None => String "%" item
                  end ≠ EmptyString).
  { unfold urlparse.unquote_item.
    destruct item as [|a [|b rest]]; [done | done |].
    destruct (urlparse.hexval a); [| done].
    destruct (urlparse.hexval b); done. }
  destruct (match urlparse.unquote_item item with
            | Some decoded => decoded
            | None => String "%" item
            end) as [|c decoded]; [done |].
  destruct first; discriminate.
Qed.

Lemma replace_nonempty old new s :
  s ≠ EmptyString → PyStr.replace old new s ≠ EmptyString.
Proof. destruct s; simpl; done. Qed.

(** [parse_qsl] keeps no field with an empty value. *)
Lemma parse_qsl_values_nonempty qs :
  Forall (λ kv, kv.2 ≠ EmptyString) (urlparse.parse_qsl qs).
Proof.
  unfold urlparse.parse_qsl. cbv zeta.
  induction (concat (map (PyStr.split ";") (PyStr.split "&" qs)))
    as [|piece pieces IH]; simpl; [constructor |].
  apply Forall_app. split; [| exact IH].
  unfold urlparse.parse_pair. destruct (negb _); [constructor |].
  destruct (PyStr.split1 "=" piece) as [|name [|value [|? ?]]];
    try constructor.
  destruct (PyStr.truthy value) eqn:Hvalue; constructor; [| constructor].
  simpl. apply unquote_nonempty, replace_nonempty.
  by destruct value.
Qed.

Lemma field_values_nonempty key qs :
  Forall (λ value, value ≠ EmptyString)
    (urlparse.field_values key (urlparse.parse_qsl qs)).
Proof.
  unfold urlparse.field_values.
  induction (parse_qsl_values_nonempty qs) as [|kv fields Hkv _ IH];
    [constructor |].
  rewrite filter_cons. destruct (decide (kv.1 = key)); [| exact IH].
  rewrite fmap_cons. by constructor.
Qed.

Lemma forms_get_last fields key :
  forms_get fields key = last (urlparse.field_values key fields).
Proof. unfold forms_get, urlparse.field_values. by rewrite fmap_last. Qed.

End QueryStrings.

(** ** The pipeline as a whole *)

Section Pipeline.

Variable zlib_decompress : string → Z → string + string.
Variable zlib_compress : string → string.
Variable loads : string → json + string.
Variable dumps : json → string.
Variable GATEWAY_IP_KEY_SALT : option string.

Local Abbreviation decompress_body :=
  (Gateway.decompress_body zlib_decompress).
Local Abbreviation payload := (Gateway.payload zlib_decompress).
Local Abbreviation serve :=
  (Gateway.serve zlib_decompress loads dumps GATEWAY_IP_KEY_SALT).
Local Abbreviation published :=
  (Gateway.published zlib_decompress zlib_compress loads dumps
     GATEWAY_IP_KEY_SALT).

(** The payload of a compressed request whose body decompresses. *)
Lemma payload_compressed req output :
  compressed req →
  decompress_body req initial = (inl output, initial) →
  payload req =
  if Gateway.dict_truthy (urlparse.parse_qs output) then
    match urlparse.parse_qs output !! "data" with
    | Some (value :: _) => inl value
    | _ => inr (MalformedUploadError Gateway.no_data_message)
    end
  else inl output.
Proof.
  intros Hc Hdec. unfold Gateway.payload.
  rewrite get_decompressed_message_compressed, Hdec by done.
  rewrite form_enc_extract_run.
  destruct (Gateway.dict_truthy _); [| done].
  by destruct (_ !! "data") as [[|? ?]|].
Qed.

(** A compressed request: either the body decompresses, or both
    attempts fail. *)
Lemma decompress_body_cases req :
  (∃ output, decompress_body req initial = (inl output, initial)) ∨
  (∃ message, decompress_body req initial =
              (inr (zlib_error message), initial)).
Proof.
  rewrite decompress_body_run.
  destruct (zlib_decompress (body req) 47); [eauto |].
  destruct (zlib_decompress (body req) (-15)); eauto.
Qed.

Lemma payload_plain req :
  ¬ compressed req →
  payload req =
  inl (match forms_get (forms req) "data" with
       | Some value => if PyStr.truthy value then value else body req
       | None => body req
       end).
Proof.
  intros Hc. unfold Gateway.payload.
  rewrite get_decompressed_message_plain by done.
  destruct (forms_get _ _) as [value|]; [| done].
  by destruct (PyStr.truthy value).
Qed.

Lemma same_payload_same_outcome r1 r2 :
  payload r1 = payload r2 →
  serve r1 = serve r2 ∧ published r1 = published r2.
Proof.
  intros Hp.
  assert (Hserve : serve r1 = serve r2) by (by rewrite !serve_run, Hp).
  split; [exact Hserve |]. by rewrite !published_run, Hserve.
Qed.


Lemma contains_app c s1 s2 :
  PyStr.contains c (s1 +:+ s2) = PyStr.contains c s1 || PyStr.contains c s2.
Proof.
  induction s1 as [|a s1 IH]; simpl; [done |].
  by rewrite IH, orb_assoc.
Qed.

Lemma truthy_spec s : PyStr.truthy s = true ↔ s ≠ EmptyString.
Proof. destruct s; simpl; split; congruence. Qed.

(** The form body [data=J] has the single field [data], with value
    [J], when [J] is not empty and has none of [&], [;], [%], [+]. *)
Lemma parse_qsl_data_field J :
  J ≠ EmptyString →
  PyStr.contains "&" J = false → PyStr.contains ";" J = false →
  PyStr.contains "%" J = false → PyStr.contains "+" J = false →
  urlparse.parse_qsl ("data=" +:+ J) = [("data", J)].
Proof.
  intros HJ Hamp Hsemi Hpct Hplus. unfold urlparse.parse_qsl. cbv zeta.
  rewrite (split_absent "&") by (by rewrite contains_app, Hamp).
  simpl map. simpl concat.
  rewrite (split_absent ";") by (by rewrite contains_app, Hsemi).
  simpl. rewrite app_nil_r. unfold urlparse.parse_pair.
  simpl. change (EmptyString +:+ J) with J.
  apply truthy_spec in HJ. rewrite HJ.
  rewrite (replace_absent "+" " " J Hplus), (unquote_absent J Hpct).
  reflexivity.
Qed.

(** X2: a compressed body that decompresses to [data=J], where [J] is
    not empty and has none of the characters [&], [;], [%] and [+], has
    [J] as its canonical payload, and is therefore answered and
    published like every request whose canonical payload is [J]. *)
Theorem compressed_form_field_is_extracted zipped J :
  compressed zipped →
  decompress_body zipped initial = (inl ("data=" +:+ J), initial) →
  J ≠ EmptyString →
  PyStr.contains "&" J = false → PyStr.contains ";" J = false →
  PyStr.contains "%" J = false → PyStr.contains "+" J = false →
  payload zipped = inl J ∧
  ∀ other, payload other = inl J →
           serve zipped = serve other ∧ published zipped = published other.
Proof.
  intros Hz Hdec HJ Hamp Hsemi Hpct Hplus.
  assert (Hfields := parse_qsl_data_field J HJ Hamp Hsemi Hpct Hplus).
  assert (Hpz : payload zipped = inl J).
  { rewrite (payload_compressed _ _ Hz Hdec).
    assert (Hne : Gateway.dict_truthy (urlparse.parse_qs ("data=" +:+ J))
                  = true).
    { apply dict_truthy_spec. rewrite parse_qs_empty, Hfields. done. }
    rewrite Hne, parse_qs_lookup, Hfields. reflexivity. }
  split; [exact Hpz |]. intros other Hother.
  apply same_payload_same_outcome. by rewrite Hpz, Hother.
Qed.

(** X3: when the [data] field is given several times, the compressed
    path takes its first value; the uncompressed path takes the last
    value [request.forms.get] finds, and the whole raw body when that
    last value is empty. *)
Theorem repeated_data_field_first_or_last
    zipped plain output first rest values final :
  compressed zipped →
  decompress_body zipped initial = (inl output, initial) →
  urlparse.field_values "data" (urlparse.parse_qsl output) = first :: rest →
  ¬ compressed plain →
  urlparse.field_values "data" (forms plain) = values →
  last values = Some final →
  payload zipped = inl first ∧
  payload plain = inl (if PyStr.truthy final then final else body plain).
Proof.
  intros Hz Hdec Hfirst Hp Hvalues Hlast. split.
  - rewrite (payload_compressed _ _ Hz Hdec).
    assert (Hne : Gateway.dict_truthy (urlparse.parse_qs output) = true).
    { apply dict_truthy_spec. rewrite parse_qs_empty. intros Hnil.
      by rewrite Hnil in Hfirst. }
    by rewrite Hne, parse_qs_lookup, Hfirst.
  - by rewrite (payload_plain _ Hp), forms_get_last, Hvalues, Hlast.
Qed.

(** X4: the canonical payload is [MalformedUploadError] exactly when
    the request is compressed, its body decompresses, and the output
    has form fields none of which is [data]; the message is then the
    missing-key message. In particular [[0]] never raises. *)
Theorem malformed_upload_exactly_when req message :
  payload req = inr (MalformedUploadError message) ↔
  message = Gateway.no_data_message ∧ compressed req ∧
  ∃ output,
    decompress_body req initial = (inl output, initial) ∧
    urlparse.parse_qsl output ≠ [] ∧
    urlparse.field_values "data" (urlparse.parse_qsl output) = [].
Proof.
  split.
  - intros Hpayload.
    destruct (decide (compressed req)) as [Hc | Hc];
      [| by rewrite (payload_plain _ Hc) in Hpayload].
    destruct (decompress_body_cases req) as [[output Hdec] | [msg Hdec]].
    + rewrite (payload_compressed _ _ Hc Hdec) in Hpayload.
      destruct (Gateway.dict_truthy _) eqn:Htruthy; [| done].
      apply dict_truthy_spec in Htruthy. rewrite parse_qs_empty in Htruthy.
      rewrite parse_qs_lookup in Hpayload.
      destruct (urlparse.field_values _ _) as [|value values] eqn:Hvalues;
        [| done].
      injection Hpayload as <-. eauto 10.
    + unfold Gateway.payload in Hpayload.
      rewrite get_decompressed_message_compressed, Hdec in Hpayload by done.
      done.
  - intros (-> & Hc & output & Hdec & Hne & Hdata).
    rewrite (payload_compressed _ _ Hc Hdec).
    assert (Htruthy : Gateway.dict_truthy (urlparse.parse_qs output) = true)
      by (by apply dict_truthy_spec; rewrite parse_qs_empty).
    by rewrite Htruthy, parse_qs_lookup, Hdata.
Qed.

(** X5: a [Content-Encoding] other than exactly [gzip] or [deflate]
    leaves the body as it is. When [request.forms.get('data')] returns
    [data_key], the canonical payload is [data_key] if that is a
    non-empty value and the raw body otherwise, whatever zlib would
    make of the body. *)
Theorem other_content_encoding_is_not_decompressed req encoding data_key :
  headers req !! "Content-Encoding" = Some encoding →
  encoding ≠ "gzip" → encoding ≠ "deflate" →
  forms_get (forms req) "data" = data_key →
  ∀ other_zlib,
    Gateway.payload other_zlib req =
    inl (match data_key with
         | Some value => if PyStr.truthy value then value else body req
         | None => body req
         end).
Proof.
  intros Henc Hgzip Hdeflate Hdata other_zlib.
  assert (Hc : ¬ compressed req).
  { unfold compressed. rewrite Henc. intros [[= ->] | [= ->]]; done. }
  unfold Gateway.payload.
  rewrite get_decompressed_message_plain, Hdata by done.
  destruct data_key as [value|]; [| done].
  by destruct (PyStr.truthy value).
Qed.

(** The payload of a compressed request whose body does not
    decompress. *)
Lemma payload_undecompressed req message :
  compressed req →
  decompress_body req initial = (inr (zlib_error message), initial) →
  payload req = inr (zlib_error message).
Proof.
  intros Hc Hdec. unfold Gateway.payload.
  by rewrite get_decompressed_message_compressed, Hdec.
Qed.

(** X6: on the compressed path an exception leaves [upload] exactly
    when a salt is configured, the body decompresses and the canonical
    payload taken from the output decodes as JSON; it is then the
    [AttributeError] of the [upload_keys] lookup, and nothing was
    spawned. A failed decompression, a form without [data] and a
    payload that does not decode are all answered. *)
Theorem compressed_unhandled_exactly_when req e args :
  compressed req →
  serve req = (Unhandled e, args) ↔
  e = AttributeError "upload_keys" ∧ args = [] ∧
  PyStr.truthy_opt GATEWAY_IP_KEY_SALT = true ∧
  ∃ output message_body parsed_message,
    decompress_body req initial = (inl output, initial) ∧
    payload req = inl message_body ∧
    loads message_body = inl parsed_message.
Proof.
  intros Hc. rewrite serve_run. split.
  - destruct (decompress_body_cases req) as [[output Hdec] | [msg Hdec]].
    + destruct (payload req) as [message_body | exc] eqn:Hpayload.
      * destruct (loads message_body) as [parsed_message |] eqn:Hloads;
          [| done].
        destruct (PyStr.truthy_opt _) eqn:Hsalt; [| done].
        intros [= <- <-]. eauto 10.
      * destruct (payload_raises _ _ _ Hpayload) as [[msg ->] | ->]; done.
    + by rewrite (payload_undecompressed _ _ Hc Hdec).
  - intros (-> & -> & Hsalt & output & m & v & _ & -> & Hloads).
    by rewrite Hloads, Hsalt.
Qed.

(** X7: without a salt, a compressed request is answered in one of
    four ways: [400] with the decompressor's text when both
    decompressions fail and, when the body decompresses, [400] with
    the missing-key message, [400] with the JSON decoder's text, or
    [200 OK] with the serialised message spawned for publication. *)
Theorem compressed_request_gets_one_of_four_answers req :
  compressed req →
  PyStr.truthy_opt GATEWAY_IP_KEY_SALT = false →
  (∃ message,
      decompress_body req initial = (inr (zlib_error message), initial) ∧
      serve req = (Response 400 message, [])) ∨
  (∃ output,
      decompress_body req initial = (inl output, initial) ∧
      payload req = inr (MalformedUploadError Gateway.no_data_message) ∧
      serve req = (Response 400 Gateway.no_data_message, [])) ∨
  (∃ output message_body message,
      decompress_body req initial = (inl output, initial) ∧
      payload req = inl message_body ∧ loads message_body = inr message ∧
      serve req = (Response 400 message, [])) ∨
  (∃ output message_body parsed_message,
      decompress_body req initial = (inl output, initial) ∧
      payload req = inl message_body ∧
      loads message_body = inl parsed_message ∧
      serve req = (Response 200 "OK", [dumps parsed_message])).
Proof.
  intros Hc Hsalt. rewrite serve_run, Hsalt.
  destruct (decompress_body_cases req) as [[output Hdec] | [msg Hdec]].
  - destruct (payload req) as [message_body | exc] eqn:Hpayload.
    + destruct (loads message_body) as [parsed_message | message] eqn:Hloads.
      * do 3 right. eauto 10.
      * right; right; left. eauto 10.
    + destruct (payload_raises _ _ _ Hpayload) as [[message Hexc] | ->].
      * subst exc. rewrite (payload_compressed _ _ Hc Hdec) in Hpayload.
        destruct (Gateway.dict_truthy _); [| done].
        by destruct (_ !! "data") as [[|? ?]|].
      * right; left. eauto.
  - left. exists msg. split; [exact Hdec |].
    by rewrite (payload_undecompressed _ _ Hc Hdec).
Qed.

(** X8: the salt changes nothing for a request that is not accepted
    without a salt, and an empty salt changes nothing at all. *)
Theorem salt_matters_only_for_accepted_uploads req :
  PyStr.truthy_opt GATEWAY_IP_KEY_SALT = false ∨
  Gateway.accepted zlib_decompress loads dumps None req = false →
  serve req = Gateway.serve zlib_decompress loads dumps None req.
Proof.
  unfold Gateway.accepted. rewrite !serve_run. simpl PyStr.truthy_opt.
  destruct (payload req) as [message_body | exc]; [| done].
  destruct (loads message_body) as [parsed_message |]; [| done].
  cbv iota. simpl. intros [-> | [=]]. reflexivity.
Qed.

(** X10: the announced encoding does not select the decoder, and the
    form fields bottle decoded are not read: two compressed requests
    with the same body have the same canonical payload and are
    answered alike, one being sent as [gzip] and the other as
    [deflate] or not. *)
Theorem compressed_outcome_depends_on_body_only r1 r2 :
  compressed r1 → compressed r2 → body r1 = body r2 →
  payload r1 = payload r2 ∧
  serve r1 = serve r2 ∧ published r1 = published r2.
Proof.
  intros H1 H2 Hbody.
  assert (Hp : payload r1 = payload r2).
  { unfold Gateway.payload.
    rewrite !get_decompressed_message_compressed, !decompress_body_run
      by done.
    by rewrite Hbody. }
  split; [exact Hp |]. by apply same_payload_same_outcome.
Qed.

(** X11: the canonical payload is empty only when the body itself is:
    the raw body of an uncompressed request, or the output of the
    decompression. A payload taken from a [data] field is never
    empty. *)
Theorem empty_payload_means_empty_body req :
  payload req = inl EmptyString →
  (¬ compressed req → body req = EmptyString) ∧
  (compressed req →
   decompress_body req initial = (inl EmptyString, initial)).
Proof.
  intros Hpayload. split; intros Hc.
  - rewrite (payload_plain _ Hc) in Hpayload.
    destruct (forms_get _ _) as [value|]; [| congruence].
    destruct value; simpl in Hpayload; congruence.
  - destruct (decompress_body_cases req) as [[output Hdec] | [msg Hdec]].
    + rewrite (payload_compressed _ _ Hc Hdec) in Hpayload.
      destruct (Gateway.dict_truthy _); [| congruence].
      rewrite parse_qs_lookup in Hpayload.
      pose proof (field_values_nonempty "data" output) as Hvalues.
      destruct (urlparse.field_values _ _) as [|value values]; [done |].
      inversion Hvalues; subst. congruence.
    + unfold Gateway.payload in Hpayload.
      rewrite get_decompressed_message_compressed, Hdec in Hpayload by done.
      done.
Qed.

End Pipeline.

(** X9: the upload key follows the [X-Forwarded-For] header whenever
    the request has one, even an empty one: two requests with the same
    header get the same hash and the same entry, whatever their peer
    addresses. *)
Theorem forwarded_header_decides_upload_key salt (r1 r2 : request) forwarded :
  headers r1 !! "X-Forwarded-For" = Some forwarded →
  headers r2 !! "X-Forwarded-For" = Some forwarded →
  Gateway.ip_hash_of salt r1 = hashlib.sha1_hexdigest (salt +:+ forwarded) ∧
  Gateway.ip_hash_of salt r1 = Gateway.ip_hash_of salt r2 ∧
  Gateway.upload_key_entry (Gateway.ip_hash_of salt r1) =
  Gateway.upload_key_entry (Gateway.ip_hash_of salt r2).
Proof.
  intros H1 H2.
  unfold Gateway.ip_hash_of, Gateway.get_remote_address.
  rewrite H1, H2. done.
Qed.

(** ** Closed examples on the sample libraries *)

Module Examples.

Ltac plain_request :=
  let H := fresh in
  intros [H | H]; vm_compute in H; discriminate H.

(** The digests of the FIPS 180 test messages: one block, the empty
    message, and a message that takes two blocks. *)
Example sha1_abc :
  hashlib.sha1_hexdigest "abc" = "a9993e364706816aba3e25717850c26c9cd0d89d".
Proof. vm_compute. reflexivity. Qed.

Example sha1_empty :
  hashlib.sha1_hexdigest EmptyString =
  "da39a3ee5e6b4b0d3255bfef95601890afd80709".
Proof. vm_compute. reflexivity. Qed.

Example sha1_two_blocks :
  hashlib.sha1_hexdigest
    "abcdbcdecdefdefgefghfghighijhijkijkljklmklmnlmnomnopnopq" =
  "84983e441c3bd26ebaae4aa1f95129e5e54670f1".
Proof. vm_compute. reflexivity. Qed.

(** [parse_qsl] on a query string with an escaped byte, a plus sign, a
    [;] separator, a malformed escape, a field without [=] and a field
    with an empty value. *)
Example parse_qsl_sample :
  urlparse.parse_qsl "data=1&x=%41+b;y=%zz&q&&r=&x=2" =
  [("data", "1"); ("x", "A b"); ("y", "%zz"); ("x", "2")].
Proof. vm_compute. reflexivity. Qed.

Example parse_qs_sample :
  urlparse.parse_qs "data=1&x=%41+b;y=%zz&q&&r=&x=2" !! "x" =
  Some ["A b"; "2"].
Proof. vm_compute. reflexivity. Qed.

(** The gzip-compressed form body [data={"a":1}] is accepted: the
    payload is taken out of the form after decompression. *)
Example compressed_form_upload :
  Sample.serve None
    (Request Sample.gzip_header "10.0.0.1"
       (String "G" ("data=" +:+ Doc.a1)) []) =
  (Response 200 "OK", [Sample.dumps Doc.val_a1]).
Proof. vm_compute. reflexivity. Qed.

(** An empty body is answered with the JSON parser's message. *)
Example empty_upload :
  Sample.serve None (Request ∅ "10.0.0.1" EmptyString []) =
  (Response 400 "No JSON object could be decoded", []).
Proof. vm_compute. reflexivity. Qed.

(** [{"upload_keys": []}] uploaded raw while the salt is ["salt"]. *)
Lemma salted_mapping_is_not_augmented_witness :
  let req := Request ∅ "10.0.0.1" Doc.keys [] in
  PyStr.truthy_opt (Some "salt") = true ∧
  Gateway.payload Sample.zlib_decompress req = inl Doc.keys ∧
  Sample.loads Doc.keys = inl Doc.val_keys ∧
  Sample.serve (Some "salt") req =
    (Unhandled (AttributeError "upload_keys"), []) ∧
  Sample.published (Some "salt") req = [].
Proof.
  intros req.
  destruct (salted_mapping_is_not_augmented
              Sample.zlib_decompress Sample.zlib_compress
              Sample.loads Sample.dumps (Some "salt")
              req Doc.keys {[ "upload_keys" := JList [] ]}
              eq_refl eq_refl eq_refl) as (_ & Hserve & Hpub).
  split_and!; done.
Defined.

(** [[1]] uploaded raw while the salt is ["salt"]: the claim of a
    parse error answered with status [400] fails. *)
Lemma nonmapping_upload_is_not_a_parse_error :
  let req := Request ∅ "10.0.0.1" Doc.list1 [] in
  PyStr.truthy_opt (Some "salt") = true ∧
  Gateway.payload Sample.zlib_decompress req = inl Doc.list1 ∧
  Sample.loads Doc.list1 = inl Doc.val_list1 ∧
  is_mapping Doc.val_list1 = false ∧
  ¬ ∃ message, (Sample.serve (Some "salt") req).1 = Response 400 message.
Proof.
  intros req. split_and!; try done. intros [message Hserve].
  vm_compute in Hserve. discriminate Hserve.
Qed.

Lemma salted_nonmapping_is_unhandled_witness :
  let req := Request ∅ "10.0.0.1" Doc.list1 [] in
  PyStr.truthy_opt (Some "salt") = true ∧
  Gateway.payload Sample.zlib_decompress req = inl Doc.list1 ∧
  Sample.loads Doc.list1 = inl Doc.val_list1 ∧
  is_mapping Doc.val_list1 = false ∧
  Sample.serve (Some "salt") req =
    (Unhandled (AttributeError "upload_keys"), []) ∧
  Sample.published (Some "salt") req = [].
Proof.
  intros req.
  destruct (salted_nonmapping_is_unhandled
              Sample.zlib_decompress Sample.zlib_compress
              Sample.loads Sample.dumps (Some "salt")
              req Doc.list1 Doc.val_list1
              eq_refl eq_refl eq_refl eq_refl) as (Hserve & _ & Hpub).
  split_and!; done.
Defined.

(** A raw deflate stream sent as [deflate], and a body neither attempt
    accepts sent as [gzip]. *)
Lemma decompression_falls_back_to_raw_deflate_witness :
  let raw := Request Sample.deflate_header "10.0.0.1"
               (String "R" Doc.a1) [] in
  let junk := Request Sample.gzip_header "10.0.0.1" "junk" [] in
  compressed raw ∧
  Sample.zlib_decompress (body raw) 47 =
    inr "Error -3 while decompressing data: incorrect header check" ∧
  Sample.zlib_decompress (body raw) (-15) = inl Doc.a1 ∧
  Gateway.get_decompressed_message Sample.zlib_decompress raw initial =
    (inl Doc.a1, initial) ∧
  compressed junk ∧
  Gateway.payload Sample.zlib_decompress junk =
    inr (zlib_error
           "Error -3 while decompressing data: incorrect header check") ∧
  Sample.serve None junk =
    (Response 400
       "Error -3 while decompressing data: incorrect header check", []).
Proof.
  intros raw junk.
  assert (Hraw : compressed raw) by (right; reflexivity).
  assert (Hjunk : compressed junk) by (left; reflexivity).
  destruct (decompression_falls_back_to_raw_deflate
              Sample.zlib_decompress Sample.loads Sample.dumps None
              raw Hraw) as (_ & Hfallback & _ & _).
  destruct (decompression_falls_back_to_raw_deflate
              Sample.zlib_decompress Sample.loads Sample.dumps None
              junk Hjunk) as (_ & _ & Hboth & H400).
  assert (Hpayload :
            Gateway.payload Sample.zlib_decompress junk =
            inr (zlib_error
                   "Error -3 while decompressing data: incorrect header check")).
  { apply Hboth. split; [eexists |]; reflexivity. }
  split_and!.
  - exact Hraw.
  - reflexivity.
  - reflexivity.
  - rewrite (Hfallback _ _ eq_refl eq_refl). reflexivity.
  - exact Hjunk.
  - exact Hpayload.
  - apply H400, Hpayload.
Defined.

(** An uncompressed form body [foo=bar]: it parses as form data, has
    no [data] key, and is not rejected as malformed; the answer carries
    the JSON parser's text. *)
Lemma uncompressed_form_without_data_is_not_malformed :
  let req := Request ∅ "10.0.0.1" "foo=bar" [("foo", "bar")] in
  ¬ compressed req ∧
  urlparse.parse_qsl (body req) = [("foo", "bar")] ∧
  urlparse.parse_qs (body req) !! "data" = None ∧
  Gateway.payload Sample.zlib_decompress req = inl "foo=bar" ∧
  Gateway.payload Sample.zlib_decompress req ≠
    inr (MalformedUploadError Gateway.no_data_message) ∧
  Sample.serve None req ≠ (Response 400 Gateway.no_data_message, []).
Proof.
  intros req. split_and!; try (vm_compute; reflexivity).
  - plain_request.
  - discriminate.
  - intros Hserve. vm_compute in Hserve. discriminate Hserve.
Qed.

(** The form body [foo=bar] sent gzip-compressed is rejected; sent
    uncompressed it is the payload. *)
Lemma missing_data_key_is_rejected_after_decompression_witness :
  let zipped := Request Sample.gzip_header "10.0.0.1" (String "G" "foo=bar") [] in
  let plain := Request ∅ "10.0.0.1" "foo=bar" [("foo", "bar")] in
  compressed zipped ∧
  Gateway.decompress_body Sample.zlib_decompress zipped initial =
    (inl "foo=bar", initial) ∧
  urlparse.parse_qs "foo=bar" ≠ ∅ ∧
  urlparse.parse_qs "foo=bar" !! "data" = None ∧
  Sample.serve None zipped = (Response 400 Gateway.no_data_message, []) ∧
  ¬ compressed plain ∧
  forms_get (forms plain) "data" = None ∧
  Gateway.payload Sample.zlib_decompress plain = inl "foo=bar".
Proof.
  intros zipped plain.
  assert (Hz : compressed zipped) by (left; reflexivity).
  assert (Hp : ¬ compressed plain) by plain_request.
  assert (Hne : urlparse.parse_qs "foo=bar" ≠ ∅).
  { intros Hempty. apply (f_equal (lookup "foo")) in Hempty.
    vm_compute in Hempty. discriminate Hempty. }
  assert (Hno : urlparse.parse_qs "foo=bar" !! "data" = None)
    by (vm_compute; reflexivity).
  destruct (missing_data_key_is_rejected_after_decompression
              Sample.zlib_decompress Sample.loads Sample.dumps None zipped)
    as [Hcompressed _].
  destruct (Hcompressed Hz "foo=bar" initial eq_refl) as [Hreject _].
  destruct (Hreject Hne Hno) as [_ Hserve].
  destruct (missing_data_key_is_rejected_after_decompression
              Sample.zlib_decompress Sample.loads Sample.dumps None plain)
    as [_ Hplain].
  split_and!; try assumption.
  - reflexivity.
  - reflexivity.
  - apply (Hplain Hp eq_refl).
Defined.

(** [{"a":1}] uploaded raw while the salt is ["salt"]. *)
Lemma salted_upload_leaves_error_surface_witness :
  let req := Request ∅ "10.0.0.1" Doc.a1 [] in
  PyStr.truthy_opt (Some "salt") = true ∧
  Gateway.payload Sample.zlib_decompress req = inl Doc.a1 ∧
  Sample.loads Doc.a1 = inl Doc.val_a1 ∧
  ∀ status text, (Sample.serve (Some "salt") req).1 ≠ Response status text.
Proof.
  intros req. split_and!; [reflexivity | reflexivity | reflexivity |].
  apply (salted_upload_leaves_error_surface
           Sample.zlib_decompress Sample.loads Sample.dumps (Some "salt")
           req Doc.a1 Doc.val_a1 eq_refl eq_refl eq_refl).
Defined.

(** [{"a":1}] raw, an empty body, and the gzip-compressed form body
    [data={"a":1}], served in that order. *)
Lemma published_frames_are_compressed_messages_witness :
  let reqs :=
    [Request ∅ "10.0.0.1" Doc.a1 [];
     Request ∅ "10.0.0.2" EmptyString [];
     Request Sample.gzip_header "10.0.0.3"
       (String "G" ("data=" +:+ Doc.a1)) []] in
  let frame := String "Z" (Sample.dumps Doc.val_a1) in
  (∀ text, Sample.zlib_decompress (Sample.zlib_compress text) 15
           = inl text) ∧
  Gateway.run_server Sample.zlib_decompress Sample.zlib_compress
    Sample.loads Sample.dumps None reqs [] = [frame; frame] ∧
  (∀ f, f ∈ Gateway.run_server Sample.zlib_decompress Sample.zlib_compress
              Sample.loads Sample.dumps None reqs [] →
     ∃ parsed_message,
       f = Sample.zlib_compress (Sample.dumps parsed_message) ∧
       Sample.zlib_decompress f 15 = inl (Sample.dumps parsed_message)) ∧
  length (Gateway.run_server Sample.zlib_decompress Sample.zlib_compress
            Sample.loads Sample.dumps None reqs []) = 2.
Proof.
  intros reqs frame.
  assert (Hzlib : ∀ text,
             Sample.zlib_decompress (Sample.zlib_compress text) 15
             = inl text) by (intros text; reflexivity).
  destruct (published_frames_are_compressed_messages
              Sample.zlib_decompress Sample.zlib_compress
              Sample.loads Sample.dumps None reqs Hzlib)
    as (Hframes & _ & Hcount).
  split_and!.
  - exact Hzlib.
  - reflexivity.
  - intros f Hf.
    destruct (Hframes f Hf) as (req & m & v & _ & _ & _ & _ & Hf1 & Hf2).
    exists v. split; [exact Hf1 | exact Hf2].
  - rewrite Hcount. reflexivity.
Defined.



(** [{"a":"b=c"}] sent gzip-compressed and sent as it is. *)
Lemma json_with_equals_sign_is_misread_as_form_witness :
  let zipped := Request Sample.gzip_header "10.0.0.1"
                  (String "G" Doc.abc) [] in
  let plain := Request ∅ "10.0.0.1" Doc.abc [] in
  compressed zipped ∧
  Gateway.decompress_body Sample.zlib_decompress zipped initial =
    (inl Doc.abc, initial) ∧
  ¬ compressed plain ∧ body plain = Doc.abc ∧
  forms_get (forms plain) "data" = None ∧
  Sample.loads Doc.abc = inl Doc.val_abc ∧
  PyStr.truthy_opt None = false ∧
  Sample.serve None zipped = (Response 400 Gateway.no_data_message, []) ∧
  Sample.serve None plain =
    (Response 200 "OK", [Sample.dumps Doc.val_abc]).
Proof.
  intros zipped plain.
  assert (Hz : compressed zipped) by (left; reflexivity).
  assert (Hp : ¬ compressed plain) by plain_request.
  destruct (json_with_equals_sign_is_misread_as_form
              Sample.zlib_decompress Sample.loads Sample.dumps None
              zipped plain Doc.val_abc
              Hz eq_refl Hp eq_refl eq_refl eq_refl eq_refl)
    as (_ & _ & Hzipped & Hplain).
  split_and!; [exact Hz | reflexivity | exact Hp | reflexivity | reflexivity
              | reflexivity | reflexivity | exact Hzipped | exact Hplain].
Defined.

(** The form body [data=&x=1]: the [data] field is there and empty. *)
Lemma empty_data_field_counts_as_absent_witness :
  let req := Request ∅ "10.0.0.1" "data=&x=1"
               [("data", EmptyString); ("x", "1")] in
  ¬ compressed req ∧
  forms_get (forms req) "data" = Some EmptyString ∧
  Gateway.get_decompressed_message Sample.zlib_decompress req initial =
    (inl "data=&x=1", initial).
Proof.
  intros req.
  assert (Hp : ¬ compressed req) by plain_request.
  split_and!; [exact Hp | reflexivity |].
  apply (empty_data_field_counts_as_absent
           Sample.zlib_decompress req initial Hp eq_refl).
Defined.

End Examples.

(** ** Closed examples for the pipeline *)

Module Scenarios.

Ltac plain_request :=
  let H := fresh in
  intros [H | H]; vm_compute in H; discriminate H.


(** The form body [data={"a":1}] gzip-compressed, and [{"a":1}] as a
    raw body. *)
Lemma compressed_form_field_is_extracted_witness :
  let zipped := Request Sample.gzip_header "10.0.0.1"
                  (String "G" ("data=" +:+ Doc.a1)) [] in
  let plain := Request ∅ "10.0.0.1" Doc.a1 (bottle.parse_qsl Doc.a1) in
  compressed zipped ∧
  Gateway.decompress_body Sample.zlib_decompress zipped initial =
    (inl ("data=" +:+ Doc.a1), initial) ∧
  Doc.a1 ≠ EmptyString ∧
  PyStr.contains "&" Doc.a1 = false ∧ PyStr.contains ";" Doc.a1 = false ∧
  PyStr.contains "%" Doc.a1 = false ∧ PyStr.contains "+" Doc.a1 = false ∧
  Gateway.payload Sample.zlib_decompress zipped = inl Doc.a1 ∧
  Gateway.payload Sample.zlib_decompress plain = inl Doc.a1 ∧
  Sample.serve None zipped = Sample.serve None plain.
Proof.
  intros zipped plain.
  assert (Hz : compressed zipped) by (left; reflexivity).
  assert (HJ : Doc.a1 ≠ EmptyString) by discriminate.
  assert (Hplain : Gateway.payload Sample.zlib_decompress plain =
                   inl Doc.a1) by reflexivity.
  destruct (compressed_form_field_is_extracted
              Sample.zlib_decompress Sample.zlib_compress
              Sample.loads Sample.dumps None zipped Doc.a1
              Hz eq_refl HJ eq_refl eq_refl eq_refl eq_refl)
    as (Hpayload & Hsame).
  destruct (Hsame plain Hplain) as [Hserve _].
  split_and!; [exact Hz | reflexivity | exact HJ | reflexivity | reflexivity
              | reflexivity | reflexivity | exact Hpayload | exact Hplain
              | exact Hserve].
Defined.

(** The form body [data=[1]&data=[2]], sent deflate-compressed and sent
    as it is; and the form body [data=[1]&data=], whose last [data]
    value is empty. *)
Lemma repeated_data_field_first_or_last_witness :
  let text := "data=[1]&data=[2]" in
  let zipped := Request Sample.deflate_header "10.0.0.1"
                  (String "Z" text) [] in
  let plain := Request ∅ "10.0.0.1" text (bottle.parse_qsl text) in
  let blank := "data=[1]&data=" in
  let zipped' := Request Sample.deflate_header "10.0.0.1"
                   (String "Z" blank) [] in
  let plain' := Request ∅ "10.0.0.1" blank (bottle.parse_qsl blank) in
  compressed zipped ∧
  Gateway.decompress_body Sample.zlib_decompress zipped initial =
    (inl text, initial) ∧
  urlparse.field_values "data" (urlparse.parse_qsl text) = ["[1]"; "[2]"] ∧
  ¬ compressed plain ∧
  urlparse.field_values "data" (forms plain) = ["[1]"; "[2]"] ∧
  Gateway.payload Sample.zlib_decompress zipped = inl "[1]" ∧
  Gateway.payload Sample.zlib_decompress plain = inl "[2]" ∧
  urlparse.field_values "data" (urlparse.parse_qsl blank) = ["[1]"] ∧
  urlparse.field_values "data" (forms plain') = ["[1]"; EmptyString] ∧
  Gateway.payload Sample.zlib_decompress zipped' = inl "[1]" ∧
  Gateway.payload Sample.zlib_decompress plain' = inl blank.
Proof.
  intros text zipped plain blank zipped' plain'.
  assert (Hz : compressed zipped) by (right; reflexivity).
  assert (Hp : ¬ compressed plain) by plain_request.
  assert (Hz' : compressed zipped') by (right; reflexivity).
  assert (Hp' : ¬ compressed plain') by plain_request.
  destruct (repeated_data_field_first_or_last
              Sample.zlib_decompress zipped plain text
              "[1]" ["[2]"] ["[1]"; "[2]"] "[2]"
              Hz eq_refl eq_refl Hp eq_refl eq_refl)
    as (Hfirst & Hlast).
  destruct (repeated_data_field_first_or_last
              Sample.zlib_decompress zipped' plain' blank
              "[1]" [] ["[1]"; EmptyString] EmptyString
              Hz' eq_refl eq_refl Hp' eq_refl eq_refl)
    as (Hfirst' & Hlast').
  split_and!; [exact Hz | reflexivity | reflexivity | exact Hp | reflexivity
              | exact Hfirst | exact Hlast | reflexivity | reflexivity
              | exact Hfirst' | exact Hlast'].
Defined.

(** A gzip stream announced as [GZIP] is left compressed. *)
Lemma other_content_encoding_is_not_decompressed_witness :
  let text := String "G" Doc.a1 in
  let req := Request {[ "Content-Encoding" := "GZIP" ]} "10.0.0.1"
               text (bottle.parse_qsl text) in
  headers req !! "Content-Encoding" = Some "GZIP" ∧
  "GZIP" ≠ "gzip" ∧ "GZIP" ≠ "deflate" ∧
  forms_get (forms req) "data" = None ∧
  Gateway.payload Sample.zlib_decompress req = inl text.
Proof.
  intros text req.
  assert (H1 : "GZIP" ≠ "gzip") by discriminate.
  assert (H2 : "GZIP" ≠ "deflate") by discriminate.
  split_and!; [reflexivity | exact H1 | exact H2 | reflexivity |].
  apply (other_content_encoding_is_not_decompressed
           req "GZIP" None eq_refl H1 H2 eq_refl Sample.zlib_decompress).
Defined.

(** [{"a":1}] gzip-compressed while the salt is ["salt"]. *)
Lemma compressed_unhandled_exactly_when_witness :
  let req := Request Sample.gzip_header "10.0.0.1"
               (String "G" Doc.a1) [] in
  compressed req ∧
  Sample.serve (Some "salt") req =
    (Unhandled (AttributeError "upload_keys"), []).
Proof.
  intros req.
  assert (Hc : compressed req) by (left; reflexivity).
  split; [exact Hc |].
  apply (compressed_unhandled_exactly_when
           Sample.zlib_decompress Sample.loads Sample.dumps (Some "salt")
           req (AttributeError "upload_keys") [] Hc).
  split_and!; try reflexivity.
  exists Doc.a1, Doc.a1, Doc.val_a1. split_and!; reflexivity.
Defined.

(** [{"a":1}] gzip-compressed without a salt falls in one of the four
    cases. *)
Lemma compressed_request_gets_one_of_four_answers_witness :
  let req := Request Sample.gzip_header "10.0.0.1"
               (String "G" Doc.a1) [] in
  compressed req ∧
  PyStr.truthy_opt None = false ∧
  ((∃ message,
      Gateway.decompress_body Sample.zlib_decompress req initial =
        (inr (zlib_error message), initial) ∧
      Sample.serve None req = (Response 400 message, [])) ∨
   (∃ output,
      Gateway.decompress_body Sample.zlib_decompress req initial =
        (inl output, initial) ∧
      Gateway.payload Sample.zlib_decompress req =
        inr (MalformedUploadError Gateway.no_data_message) ∧
      Sample.serve None req = (Response 400 Gateway.no_data_message, [])) ∨
   (∃ output message_body message,
      Gateway.decompress_body Sample.zlib_decompress req initial =
        (inl output, initial) ∧
      Gateway.payload Sample.zlib_decompress req = inl message_body ∧
      Sample.loads message_body = inr message ∧
      Sample.serve None req = (Response 400 message, [])) ∨
   (∃ output message_body parsed_message,
      Gateway.decompress_body Sample.zlib_decompress req initial =
        (inl output, initial) ∧
      Gateway.payload Sample.zlib_decompress req = inl message_body ∧
      Sample.loads message_body = inl parsed_message ∧
      Sample.serve None req =
        (Response 200 "OK", [Sample.dumps parsed_message]))).
Proof.
  intros req.
  assert (Hc : compressed req) by (left; reflexivity).
  split_and!; [exact Hc | reflexivity |].
  apply (compressed_request_gets_one_of_four_answers
           Sample.zlib_decompress Sample.loads Sample.dumps None req
           Hc eq_refl).
Defined.

(** An empty salt, and a salt with an upload that does not parse. *)
Lemma salt_matters_only_for_accepted_uploads_witness :
  let good := Request ∅ "10.0.0.1" Doc.a1 [] in
  let bad := Request ∅ "10.0.0.1" "{" [] in
  PyStr.truthy_opt (Some EmptyString) = false ∧
  Sample.serve (Some EmptyString) good = Sample.serve None good ∧
  Gateway.accepted Sample.zlib_decompress Sample.loads Sample.dumps
    None bad = false ∧
  Sample.serve (Some "salt") bad = Sample.serve None bad.
Proof.
  intros good bad. split_and!.
  - reflexivity.
  - apply (salt_matters_only_for_accepted_uploads
             Sample.zlib_decompress Sample.loads Sample.dumps
             (Some EmptyString) good (or_introl eq_refl)).
  - reflexivity.
  - apply (salt_matters_only_for_accepted_uploads
             Sample.zlib_decompress Sample.loads Sample.dumps
             (Some "salt") bad (or_intror eq_refl)).
Defined.

(** Two peers behind the same forwarded address. *)
Lemma forwarded_header_decides_upload_key_witness :
  let forwarded : gmap string string :=
    {[ "X-Forwarded-For" := "192.0.2.7" ]} in
  let r1 := Request forwarded "10.0.0.1" Doc.a1 [] in
  let r2 := Request forwarded "10.0.0.2" Doc.abc [] in
  headers r1 !! "X-Forwarded-For" = Some "192.0.2.7" ∧
  headers r2 !! "X-Forwarded-For" = Some "192.0.2.7" ∧
  remote_addr r1 ≠ remote_addr r2 ∧
  Gateway.ip_hash_of "salt" r1 = Gateway.ip_hash_of "salt" r2.
Proof.
  intros forwarded r1 r2.
  destruct (forwarded_header_decides_upload_key
              "salt" r1 r2 "192.0.2.7" eq_refl eq_refl) as (_ & Hhash & _).
  split_and!; [reflexivity | reflexivity | discriminate | exact Hhash].
Defined.

(** The same raw deflate stream announced as [gzip] and as
    [deflate]. *)
Lemma compressed_outcome_depends_on_body_only_witness :
  let r1 := Request Sample.gzip_header "10.0.0.1" (String "R" Doc.a1) [] in
  let r2 := Request Sample.deflate_header "10.0.0.2" (String "R" Doc.a1)
              [("data", Doc.abc)] in
  compressed r1 ∧ compressed r2 ∧ body r1 = body r2 ∧
  Sample.serve None r1 = Sample.serve None r2.
Proof.
  intros r1 r2.
  assert (H1 : compressed r1) by (left; reflexivity).
  assert (H2 : compressed r2) by (right; reflexivity).
  destruct (compressed_outcome_depends_on_body_only
              Sample.zlib_decompress Sample.zlib_compress
              Sample.loads Sample.dumps None r1 r2 H1 H2 eq_refl)
    as (_ & Hserve & _).
  split_and!; [exact H1 | exact H2 | reflexivity | exact Hserve].
Defined.

(** An empty body with an empty [data] field. *)
Lemma empty_payload_means_empty_body_witness :
  let req := Request ∅ "10.0.0.1" EmptyString [("data", EmptyString)] in
  Gateway.payload Sample.zlib_decompress req = inl EmptyString ∧
  ¬ compressed req ∧
  body req = EmptyString.
Proof.
  intros req.
  assert (Hc : ¬ compressed req) by plain_request.
  destruct (empty_payload_means_empty_body
              Sample.zlib_decompress req eq_refl) as [Hplain _].
  split_and!; [reflexivity | exact Hc | exact (Hplain Hc)].
Defined.

End Scenarios.
